(** * Icon batch converter: a shallow embedding of
      chrome-extension/icons/generate-icons.py

    The script converts four fixed SVG files to PNG files with the
    external rasterizer [cairosvg].  Everything it does is an effect on its
    surroundings (file system, console, working directory, child
    processes), so the embedding is a state-and-exception monad over a
    record [world] holding exactly those surroundings.  The rasterizer, the
    text decoding done by [open(..., 'r')] and the shell are not code of the
    script: they are parameters of the development. *)

From stdpp Require Import gmap strings list fin_maps pretty.
From Stdlib Require Import ZArith Lia Ascii String.

Open Scope Z_scope.

(** ** Exceptions and results *)

(** An instance of Python's [Exception] class: the name of its class and
    what [str(e)] gives.  Interpreter exits and keyboard interrupts, which
    are not [Exception] instances, are outside the model. *)
Record exn := Exn { exn_type : string; exn_str : string }.

Inductive result (A : Type) :=
| Ok (a : A)
| Raise (e : exn).
Arguments Ok {A} a.
Arguments Raise {A} e.

(** ** The surroundings of a run *)

(** What sits at an absolute path: a regular file with its bytes, or a
    directory with the size [stat] reports for it. *)
Inductive node :=
| File (data : string)
| Dir (st_size : N).

(** One invocation of [cairosvg.svg2png], with its keyword arguments. *)
Record raster_call := RasterCall {
  rc_bytestring : string;
  rc_write_to : string;
  rc_output_width : Z;
  rc_output_height : Z
}.

(** Absolute paths are lists of components, root first.  [modules] are the
    modules whose import succeeds.  [entropy] stands for everything that
    may differ from one rasterizer call to the next (time, randomness);
    [spawned] and [raster_calls] record the commands given to [os.system]
    and the calls of the rasterizer. *)
Record world := World {
  fs : gmap (list string) node;
  modules : gset string;
  entropy : nat;
  cwd : list string;
  stdout : list string;
  spawned : list string;
  raster_calls : list raster_call
}.

Definition set_fs (f : gmap (list string) node) (w : world) : world :=
  World f (modules w) (entropy w) (cwd w) (stdout w) (spawned w) (raster_calls w).
Definition set_cwd (d : list string) (w : world) : world :=
  World (fs w) (modules w) (entropy w) d (stdout w) (spawned w) (raster_calls w).
Definition put_line (s : string) (w : world) : world :=
  World (fs w) (modules w) (entropy w) (cwd w) (stdout w ++ [s]) (spawned w) (raster_calls w).
Definition log_raster (c : raster_call) (w : world) : world :=
  World (fs w) (modules w) (S (entropy w)) (cwd w) (stdout w) (spawned w)
        (raster_calls w ++ [c]).

(** ** The monad of the script: state passing with exceptions *)

Definition M (A : Type) : Type := world -> result A * world.

Definition ret {A} (a : A) : M A := fun w => (Ok a, w).

Definition bind {A B} (m : M A) (k : A -> M B) : M B :=
  fun w => match m w with
           | (Ok a, w') => k a w'
           | (Raise e, w') => (Raise e, w')
           end.

Definition raise {A} (e : exn) : M A := fun w => (Raise e, w).

(** [try: body / except <classes> as e: handler e]: an exception of a class
    the clause names is handled in the world the body left behind, any
    other one propagates. *)
Definition try_except {A} (catches : exn -> bool) (body : M A) (handler : exn -> M A) : M A :=
  fun w => match body w with
           | (Ok a, w') => (Ok a, w')
           | (Raise e, w') => if catches e then handler e w' else (Raise e, w')
           end.

Notation "x <- c ;; k" := (bind c (fun x => k))
  (at level 100, c at next level, right associativity,
   format "'[v' x  <-  c  ;;  '/' k ']'").
Notation "c ;;; k" := (bind c (fun _ => k))
  (at level 100, right associativity, format "'[v' c  ;;;  '/' k ']'").

(** Every modelled exception is an [Exception] instance. *)
Definition Exception (e : exn) : bool := true.

(** [ModuleNotFoundError] is the one subclass of [ImportError]. *)
Definition ImportError (e : exn) : bool :=
  String.eqb (exn_type e) "ImportError" || String.eqb (exn_type e) "ModuleNotFoundError".

(** ** Paths *)

Fixpoint split_slash (cur s : string) : list string :=
  match s with
  | EmptyString => [cur]
  | String c r =>
      if Ascii.eqb c "/"%char then cur :: split_slash "" r
      else split_slash (cur +:+ String c "") r
  end.

Definition is_abs (p : string) : bool :=
  match p with
  | String c _ => Ascii.eqb c "/"%char
  | EmptyString => false
  end.

Definition path_step (acc : list string) (c : string) : list string :=
  if String.eqb c "" then acc
  else if String.eqb c "." then acc
  else if String.eqb c ".." then removelast acc
  else acc ++ [c].

(** The absolute path a path string denotes in working directory [d]
    (no symbolic links): what [os.path.abspath] computes, and what the
    system does with a path given to [open], [stat] or [chdir]. *)
Definition resolve (d : list string) (p : string) : list string :=
  fold_left path_step (split_slash "" p) (if is_abs p then [] else d).

(** ** The operations of the Python library the script calls

    The console takes every line, and file permissions are not modelled:
    what a path gives depends only on what sits there. *)

Definition print (s : string) : M unit := fun w => (Ok tt, put_line s w).

Definition os_path_exists (p : string) : M bool :=
  fun w => (Ok (bool_decide (is_Some (fs w !! resolve (cwd w) p))), w).

Definition os_path_getsize (p : string) : M Z :=
  fun w => match fs w !! resolve (cwd w) p with
           | Some (File data) => (Ok (Z.of_nat (String.length data)), w)
           | Some (Dir n) => (Ok (Z.of_N n), w)
           | None => (Raise (Exn "FileNotFoundError"
                       ("[Errno 2] No such file or directory: '" +:+ p +:+ "'")), w)
           end.

Definition os_path_abspath (p : string) : M (list string) :=
  fun w => (Ok (resolve (cwd w) p), w).

Definition os_path_dirname (p : list string) : list string := removelast p.

(** [os.chdir] is only given the directory the running script was loaded
    from, which exists. *)
Definition os_chdir (d : list string) : M unit := fun w => (Ok tt, set_cwd d w).

(** Python text is kept as its UTF-8 encoding, so [s.encode('utf-8')] is
    the text itself. *)
Definition encode_utf8 (s : string) : string := s.

(** Thousands separators of the format [{n:,}]: the digits are walked from
    the least significant one, [k] counting those of the current group. *)
Fixpoint group3 (rev_digits : list ascii) (k : nat) : list ascii :=
  match rev_digits with
  | [] => []
  | c :: r =>
      if (k =? 3)%nat then ","%char :: c :: group3 r 1
      else c :: group3 r (S k)
  end.

Definition with_commas (digits : string) : string :=
  string_of_list_ascii (rev (group3 (rev (list_ascii_of_string digits)) 0)).

Definition format_commas (n : Z) : string :=
  if n <? 0 then "-" +:+ with_commas (pretty (- n)) else with_commas (pretty n).

(** [s * n] on strings. *)
Fixpoint str_mul (s : string) (n : nat) : string :=
  match n with
  | O => ""
  | S k => s +:+ str_mul s k
  end.

(** A [for] loop whose body updates the accumulator [a]; a body that ends
    early ([continue]) just returns. *)
Fixpoint for_each {A B} (body : A -> B -> M A) (l : list B) (a : A) : M A :=
  match l with
  | [] => ret a
  | x :: r => a' <- body a x ;; for_each body r a'
  end.

Definition len {A} (l : list A) : Z := Z.of_nat (List.length l).

(** ** The script *)

Section Script.

(** What reading a file opened in text mode makes of its bytes (decoding
    in the locale's encoding, strict): the text, or [UnicodeDecodeError]. *)
Variable text_decode : string -> result string.

(** The rasterizer proper: SVG bytes, width and height to PNG bytes, or an
    exception.  Its first argument is the [entropy] of the world at the
    call, so that a rasterizer need not be deterministic. *)
Variable render : nat -> string -> Z -> Z -> result string.

(** What running a shell command does to the world. *)
Variable shell : string -> world -> world.

(** What [import name] raises in a world where the module does not import:
    [ModuleNotFoundError] when it is not installed, and whatever its own
    code raises when it is (a missing shared library, for one). *)
Variable import_failure : string -> world -> exn.

(** [__file__]: the path the script was started with. *)
Variable file__ : string.

(** [with open(p, 'r') as f: f.read()] *)
Definition open_read (p : string) : M string :=
  fun w => match fs w !! resolve (cwd w) p with
           | Some (File data) => (text_decode data, w)
           | Some (Dir _) =>
               (Raise (Exn "IsADirectoryError"
                         ("[Errno 21] Is a directory: '" +:+ p +:+ "'")), w)
           | None =>
               (Raise (Exn "FileNotFoundError"
                         ("[Errno 2] No such file or directory: '" +:+ p +:+ "'")), w)
           end.

(** Modelled from the spec: [cairosvg.svg2png(bytestring=, write_to=,
    output_width=, output_height=)] is a library outside the repository.
    Following section 6 of the specification it renders the source to
    raster bytes at the requested width and height and writes them
    directly to the destination path; a destination that is a directory
    cannot be written, and the exception here stands for the one the
    library raises then, whose text is the library's own.  Nothing is
    written when rendering fails. *)
Definition cairosvg_svg2png (bytestring write_to : string)
    (output_width output_height : Z) : M unit :=
  fun w =>
    let w1 := log_raster (RasterCall bytestring write_to output_width output_height) w in
    match render (entropy w) bytestring output_width output_height with
    | Raise e => (Raise e, w1)
    | Ok png =>
        match fs w1 !! resolve (cwd w1) write_to with
        | Some (Dir _) =>
            (Raise (Exn "IsADirectoryError"
                      ("[Errno 21] Is a directory: '" +:+ write_to +:+ "'")), w1)
        | _ => (Ok tt, set_fs (<[resolve (cwd w1) write_to := File png]> (fs w1)) w1)
        end
    end.

(** [os.system(cmd)]: the command runs as a child process, which may
    change files, installed modules and the console, but not the working
    directory of the script.  The script ignores the exit status. *)
Definition os_system (cmd : string) : M unit :=
  fun w =>
    let w' := shell cmd w in
    (Ok tt, World (fs w') (modules w') (entropy w') (cwd w) (stdout w')
                  (spawned w ++ [cmd]) (raster_calls w)).

(** [import name] *)
Definition import_module (name : string) : M unit :=
  fun w =>
    if bool_decide (name ∈ modules w) then (Ok tt, w)
    else (Raise (import_failure name w), w).

(** Lines 10-15: the import of the rasterizer. *)
Definition import_block : M unit :=
  try_except ImportError
    (import_module "cairosvg")
    (fun _ =>
       print "❌ cairosvg not found. Installing..." ;;;
       os_system "pip3 install cairosvg" ;;;
       import_module "cairosvg").

(** Lines 19-30: the body of the [try] of [generate_icon]. *)
Definition generate_icon_try (svg_file output_file : string) (size : Z) : M bool :=
  svg_data <- open_read svg_file ;;
  cairosvg_svg2png (encode_utf8 svg_data) output_file size size ;;;
  print ("   ✅ Created: " +:+ output_file +:+ " (" +:+ pretty size +:+ "x"
           +:+ pretty size +:+ ")") ;;;
  ret true.

Definition generate_icon (svg_file output_file : string) (size : Z) : M bool :=
  try_except Exception
    (generate_icon_try svg_file output_file size)
    (fun e =>
       print ("   ❌ Failed: " +:+ output_file +:+ " - " +:+ exn_str e) ;;;
       ret false).

Definition icons : list (string * string * Z) :=
  [ ("icon-16.svg", "icon16.png", 16);
    ("icon-32.svg", "icon32.png", 32);
    ("icon-48.svg", "icon48.png", 48);
    ("icon-master.svg", "icon128.png", 128) ].

(** Lines 55-61: the body of the conversion loop. *)
Definition convert_step (success_count : Z) (job : string * string * Z) : M Z :=
  let '(svg_file, png_file, size) := job in
  found <- os_path_exists svg_file ;;
  if negb found then
    print ("   ⚠️  SVG not found: " +:+ svg_file) ;;;
    ret success_count
  else
    print ("📦 Generating " +:+ png_file +:+ "...") ;;;
    ok <- generate_icon svg_file png_file size ;;
    if ok then ret (success_count + 1) else ret success_count.

(** Lines 72-74: the body of the listing loop. *)
Definition listing_step (_ : unit) (job : string * string * Z) : M unit :=
  let '(_, png_file, _) := job in
  found <- os_path_exists png_file ;;
  if found then
    size <- os_path_getsize png_file ;;
    print ("   " +:+ png_file +:+ ": " +:+ format_commas size +:+ " bytes")
  else ret tt.

Definition main : M unit :=
  print "🎨 LendingPad PDF Auditor - Icon Generator" ;;;
  print (str_mul "=" 50) ;;;
  print "" ;;;
  here <- os_path_abspath file__ ;;
  os_chdir (os_path_dirname here) ;;;
  print "Converting SVG icons to PNG..." ;;;
  print "" ;;;
  success_count <- for_each convert_step icons 0 ;;
  print "" ;;;
  (if success_count =? len icons then
     print "✅ All icons generated successfully!"
   else
     print ("⚠️  Generated " +:+ pretty success_count +:+ " out of "
              +:+ pretty (len icons) +:+ " icons")) ;;;
  print "" ;;;
  print "Generated files:" ;;;
  for_each listing_step icons tt.

(** The script run as a program: the import block, then [main()]. *)
Definition script : M unit :=
  import_block ;;;
  main.

End Script.

(** ** Reading a run *)

(** What became of a job. *)
Inductive outcome := Skipped | Failed | Converted.

Definition outcome_eqb (a b : outcome) : bool :=
  match a, b with
  | Skipped, Skipped | Failed, Failed | Converted, Converted => true
  | _, _ => false
  end.

Fixpoint count_outcome (o : outcome) (l : list outcome) : Z :=
  match l with
  | [] => 0
  | x :: r => (if outcome_eqb o x then 1 else 0) + count_outcome o r
  end.

Section Reading.

Variable text_decode : string -> result string.
Variable render : nat -> string -> Z -> Z -> result string.
Variable file__ : string.

(** The directory of the script, as [main] computes it in world [w]. *)
Definition script_dir (w : world) : list string :=
  os_path_dirname (resolve (cwd w) file__).

(** The world in which the conversion loop starts. *)
Definition loop_entry (w : world) : world :=
  put_line ""
    (put_line "Converting SVG icons to PNG..."
       (set_cwd (script_dir w)
          (put_line ""
             (put_line (str_mul "=" 50)
                (put_line "🎨 LendingPad PDF Auditor - Icon Generator" w))))).

(** A job met in world [w] is skipped when its source is missing, failed
    when its conversion raises, converted otherwise. *)
Definition job_outcome (job : string * string * Z) (w : world) : outcome :=
  let '(svg_file, png_file, size) := job in
  match fs w !! resolve (cwd w) svg_file with
  | None => Skipped
  | Some _ =>
      match generate_icon_try text_decode render svg_file png_file size
              (put_line ("📦 Generating " +:+ png_file +:+ "...") w) with
      | (Ok _, _) => Converted
      | (Raise _, _) => Failed
      end
  end.

(** The outcomes of a list of jobs run in order from world [w]. *)
Fixpoint outcomes (jobs : list (string * string * Z)) (c : Z) (w : world) : list outcome :=
  match jobs with
  | [] => []
  | job :: rest =>
      job_outcome job w ::
      match convert_step text_decode render c job w with
      | (Ok c', w') => outcomes rest c' w'
      | (Raise _, w') => outcomes rest c w'
      end
  end.

(** The bytes a job would write, given what sits at its source: the
    source must be a file that decodes and renders. *)
Definition job_png (n : nat) (size : Z) (src : option node) : option string :=
  match src with
  | Some (File data) =>
      match text_decode data with
      | Ok text =>
          match render n (encode_utf8 text) size size with
          | Ok png => Some png
          | Raise _ => None
          end
      | Raise _ => None
      end
  | _ => None
  end.

(** Writing [t] from [s]: when [g] makes bytes of what sits at [s], they
    replace what sits at [t], unless that is a directory. *)
Definition write_if (s t : list string) (g : option node -> option string)
    (f : gmap (list string) node) : gmap (list string) node :=
  match g (f !! s) with
  | Some png =>
      match f !! t with
      | Some (Dir _) => f
      | _ => <[t := File png]> f
      end
  | None => f
  end.

(** The file system after a job run in directory [d]. *)
Definition job_fs (n : nat) (d : list string) (job : string * string * Z)
    (f : gmap (list string) node) : gmap (list string) node :=
  let '(svg_file, png_file, size) := job in
  write_if (resolve d svg_file) (resolve d png_file) (job_png n size) f.

(** The file system after a list of jobs run in order in directory [d]. *)
Definition batch_fs (n : nat) (d : list string) (jobs : list (string * string * Z))
    (f : gmap (list string) node) : gmap (list string) node :=
  fold_left (fun g job => job_fs n d job g) jobs f.

(** A rasterizer is deterministic when its result does not depend on the
    entropy of the world. *)
Definition deterministic : Prop :=
  forall (n m : nat) (b : string) (wd ht : Z), render n b wd ht = render m b wd ht.

(** Two jobs are apart in [d] when neither reads what the other writes and
    they write different files; the jobs of a list are separate when each
    one reads and writes different files and is apart from the later ones. *)
Definition apart (d : list string) (j k : string * string * Z) : Prop :=
  resolve d j.1.1 <> resolve d k.1.2 /\
  resolve d k.1.1 <> resolve d j.1.2 /\
  resolve d j.1.2 <> resolve d k.1.2.

Fixpoint separate (d : list string) (jobs : list (string * string * Z)) : Prop :=
  match jobs with
  | [] => True
  | j :: r => resolve d j.1.1 <> resolve d j.1.2 /\ Forall (apart d j) r /\ separate d r
  end.

(** A job is convertible in directory [d] on file system [f] when its
    source is a file that decodes, the rasterizer accepts it at the job's
    size whenever it is called, and its destination is not a directory. *)
Definition convertible (d : list string) (f : gmap (list string) node)
    (job : string * string * Z) : Prop :=
  exists data text,
    f !! resolve d job.1.1 = Some (File data) /\
    text_decode data = Ok text /\
    (forall n : nat, exists bytes, render n (encode_utf8 text) job.2 job.2 = Ok bytes) /\
    (forall n : N, f !! resolve d job.1.2 <> Some (Dir n)).

(** Any two different jobs of the list are apart. *)
Definition all_apart (d : list string) (jobs : list (string * string * Z)) : Prop :=
  forall j k, In j jobs -> In k jobs -> j <> k -> apart d j k.

End Reading.

(** The size [os.path.getsize] reports for what sits at a path. *)
Definition node_size (n : node) : Z :=
  match n with
  | File data => Z.of_nat (String.length data)
  | Dir sz => Z.of_N sz
  end.

(** The listing that file system [f] calls for: one line for each job, in
    order, whose destination exists in directory [d]. *)
Fixpoint listing_of (d : list string) (f : gmap (list string) node)
    (jobs : list (string * string * Z)) : list string :=
  match jobs with
  | [] => []
  | (_, png_file, _) :: rest =>
      match f !! resolve d png_file with
      | Some n =>
          ["   " +:+ png_file +:+ ": " +:+ format_commas (node_size n) +:+ " bytes"]
      | None => []
      end ++ listing_of d f rest
  end.

(** A string without its commas. *)
Fixpoint strip_commas (s : string) : string :=
  match s with
  | EmptyString => EmptyString
  | String c r => if Ascii.eqb c ","%char then strip_commas r else String c (strip_commas r)
  end.

(** ** A sample installation *)

(** Text files are read as they are, but for those that start with the
    byte 0xFF. *)
Definition sample_decode (b : string) : result string :=
  if String.prefix (String "255"%char "") b then
    Raise (Exn "UnicodeDecodeError"
             "'utf-8' codec can't decode byte 0xff in position 0: invalid start byte")
  else Ok b.

(** A deterministic rasterizer: it accepts what starts with [<svg]. *)
Definition sample_render (n : nat) (b : string) (w h : Z) : result string :=
  if String.prefix "<svg" b then Ok ("PNG " +:+ pretty w +:+ "x" +:+ pretty h +:+ " " +:+ b)
  else Raise (Exn "ParseError" "syntax error: line 1, column 0").


(** A shell without network. *)
Definition offline_shell (cmd : string) (w : world) : world := w.

(** The import of a module that is not installed. *)
Definition not_installed (name : string) (w : world) : exn :=
  Exn "ModuleNotFoundError" ("No module named '" +:+ name +:+ "'").





Definition sample_file : string := "/ext/icons/generate-icons.py".

(** The first source is fine, the second is not SVG, the third is missing,
    and the destination of the fourth is a directory. *)
Definition sample_fs : gmap (list string) node :=
  <[ ["ext"; "icons"; "icon-16.svg"] := File "<svg/>" ]>
  (<[ ["ext"; "icons"; "icon-32.svg"] := File "junk" ]>
  (<[ ["ext"; "icons"; "icon128.png"] := Dir 4096 ]>
  (<[ ["ext"; "icons"; "icon-master.svg"] := File "<svg>m</svg>" ]> ∅))).

Definition sample_world : world :=
  World sample_fs {["cairosvg"]} 0 ["home"; "dev"] [] [] [].


(** An installation in which every job can be converted, with an old
    file at the first destination. *)
Definition full_fs : gmap (list string) node :=
  <[ ["ext"; "icons"; "icon-16.svg"] := File "<svg>16</svg>" ]>
  (<[ ["ext"; "icons"; "icon-32.svg"] := File "<svg>32</svg>" ]>
  (<[ ["ext"; "icons"; "icon-48.svg"] := File "<svg>48</svg>" ]>
  (<[ ["ext"; "icons"; "icon-master.svg"] := File "<svg>m</svg>" ]>
  (<[ ["ext"; "icons"; "icon16.png"] := File "old" ]> ∅)))).

Definition full_world : world :=
  World full_fs {["cairosvg"]} 7 ["home"; "dev"] [] [] [].

(** An installation without any source. *)
Definition empty_world : world :=
  World (<[ ["ext"; "icons"; "icon32.png"] := File "kept" ]> ∅)
        {["cairosvg"]} 0 ["home"; "dev"] [] [] [].

(** A process in the icon directory, where a directory sits at the first
    source path. *)
Definition dir_source_world : world :=
  World (<[ ["ext"; "icons"; "icon-16.svg"] := Dir 4096 ]> ∅)
        {["cairosvg"]} 0 ["ext"; "icons"] [] [] [].

(** The full installation when the conversion loop starts. *)
Definition full_entry_world : world := loop_entry sample_file full_world.

(** The four jobs with the first two exchanged. *)
Definition icons_swapped : list (string * string * Z) :=
  [ ("icon-32.svg", "icon32.png", 32);
    ("icon-16.svg", "icon16.png", 16);
    ("icon-48.svg", "icon48.png", 48);
    ("icon-master.svg", "icon128.png", 128) ].

(** The sample world when the conversion loop starts. *)
Definition entry_world : world := loop_entry sample_file sample_world.

(** The sample world once the conversion of the second job is announced. *)
Definition second_job_world : world :=
  put_line "📦 Generating icon32.png..." entry_world.

(** ** Properties *)

(** The job names are plain: in any directory each denotes the entry of
    that name in the directory. *)
Definition plain (name : string) : Prop :=
  forall d : list string, resolve d name = d ++ [name].

Lemma icons_plain :
  Forall (fun job : string * string * Z => plain job.1.1 /\ plain job.1.2) icons.
Proof. repeat constructor. Qed.

(** The helpers on a few inputs, and a whole run in the sample world. *)
Example format_commas_samples :
  map format_commas [0; 999; 4096; 1234567] = ["0"; "999"; "4,096"; "1,234,567"].
Proof. reflexivity. Qed.

Example resolve_samples :
  resolve ["home"; "dev"] "../cube/./icons//generate-icons.py"
  = ["home"; "cube"; "icons"; "generate-icons.py"]
  /\ resolve ["home"; "dev"] sample_file = ["ext"; "icons"; "generate-icons.py"].
Proof. split; reflexivity. Qed.

Example main_sample_run :
  exists w',
    main sample_decode sample_render sample_file sample_world = (Ok tt, w') /\
    cwd w' = ["ext"; "icons"] /\
    stdout w'
    = ["🎨 LendingPad PDF Auditor - Icon Generator";
       "==================================================";
       "";
       "Converting SVG icons to PNG...";
       "";
       "📦 Generating icon16.png...";
       "   ✅ Created: icon16.png (16x16)";
       "📦 Generating icon32.png...";
       "   ❌ Failed: icon32.png - syntax error: line 1, column 0";
       "   ⚠️  SVG not found: icon-48.svg";
       "📦 Generating icon128.png...";
       "   ❌ Failed: icon128.png - [Errno 21] Is a directory: 'icon128.png'";
       "";
       "⚠️  Generated 1 out of 4 icons";
       "";
       "Generated files:";
       "   icon16.png: 16 bytes";
       "   icon128.png: 4,096 bytes"] /\
    fs w' !! ["ext"; "icons"; "icon16.png"] = Some (File "PNG 16x16 <svg/>").
Proof.
  eexists. split; [vm_compute; reflexivity|].
  split; [reflexivity|]. split; vm_compute; reflexivity.
Qed.

Section Properties.

Variable text_decode : string -> result string.
Variable render : nat -> string -> Z -> Z -> result string.
Variable shell : string -> world -> world.
Variable import_failure : string -> world -> exn.
Variable file__ : string.

Local Abbreviation generate_icon_try' := (generate_icon_try text_decode render).
Local Abbreviation generate_icon' := (generate_icon text_decode render).
Local Abbreviation convert_step' := (convert_step text_decode render).
Local Abbreviation main' := (main text_decode render file__).

(** *** Simple facts about one step *)

Lemma convert_step_missing c svg png size w :
  fs w !! resolve (cwd w) svg = None ->
  convert_step' c (svg, png, size) w
  = (Ok c, put_line ("   ⚠️  SVG not found: " +:+ svg) w).
Proof.
  intros Hnone. unfold convert_step, bind, os_path_exists, print, ret.
  rewrite Hnone. rewrite bool_decide_eq_false_2; [reflexivity|].
  intros [x Hx]. discriminate.
Qed.

Lemma convert_step_present c svg png size w :
  is_Some (fs w !! resolve (cwd w) svg) ->
  convert_step' c (svg, png, size) w
  = match generate_icon' svg png size
            (put_line ("📦 Generating " +:+ png +:+ "...") w) with
    | (Ok true, w') => (Ok (c + 1), w')
    | (Ok false, w') => (Ok c, w')
    | (Raise e, w') => (Raise e, w')
    end.
Proof.
  intros Hsome. unfold convert_step, bind, os_path_exists, print, ret.
  rewrite bool_decide_eq_true_2 by assumption. simpl.
  destruct (generate_icon' _ _ _ _) as [[[|]|e] w']; reflexivity.
Qed.

Lemma generate_icon_unfold svg png size w :
  generate_icon' svg png size w
  = match generate_icon_try' svg png size w with
    | (Ok b, w') => (Ok b, w')
    | (Raise e, w') =>
        (Ok false, put_line ("   ❌ Failed: " +:+ png +:+ " - " +:+ exn_str e) w')
    end.
Proof.
  unfold generate_icon, try_except, Exception, bind, print, ret.
  destruct (generate_icon_try' _ _ _ _) as [[b|e] w']; reflexivity.
Qed.

(** C1: a job whose source file is missing (looked up from the working
    directory, which [main] has set to the script's directory) is
    skipped: the step prints the warning and nothing else, leaves the
    file system and the counter as they were, does not call the
    rasterizer, and the loop goes on with the remaining jobs. *)
Theorem missing_source_skips_job
    (svg png : string) (size : Z) (rest : list (string * string * Z))
    (c : Z) (w : world) :
  fs w !! resolve (cwd w) svg = None ->
  exists w',
    convert_step' c (svg, png, size) w = (Ok c, w') /\
    fs w' = fs w /\
    cwd w' = cwd w /\
    raster_calls w' = raster_calls w /\
    stdout w' = stdout w ++ ["   ⚠️  SVG not found: " +:+ svg] /\
    for_each convert_step' ((svg, png, size) :: rest) c w
    = for_each convert_step' rest c w'.
Proof.
  intros Hnone. eexists. split; [apply convert_step_missing, Hnone|].
  repeat split; try reflexivity.
  cbn [for_each]. unfold bind at 1.
  rewrite convert_step_missing by assumption. reflexivity.
Qed.

Lemma generate_icon_try_cases svg png size w :
  generate_icon_try' svg png size w
  = match fs w !! resolve (cwd w) svg with
    | Some (File data) =>
        match text_decode data with
        | Ok text =>
            let w1 := log_raster (RasterCall (encode_utf8 text) png size size) w in
            match render (entropy w) (encode_utf8 text) size size with
            | Ok bytes =>
                match fs w !! resolve (cwd w) png with
                | Some (Dir _) =>
                    (Raise (Exn "IsADirectoryError"
                              ("[Errno 21] Is a directory: '" +:+ png +:+ "'")), w1)
                | _ =>
                    (Ok true,
                     put_line ("   ✅ Created: " +:+ png +:+ " (" +:+ pretty size +:+ "x"
                                 +:+ pretty size +:+ ")")
                       (set_fs (<[resolve (cwd w) png := File bytes]> (fs w)) w1))
                end
            | Raise e => (Raise e, w1)
            end
        | Raise e => (Raise e, w)
        end
    | Some (Dir _) =>
        (Raise (Exn "IsADirectoryError"
                  ("[Errno 21] Is a directory: '" +:+ svg +:+ "'")), w)
    | None =>
        (Raise (Exn "FileNotFoundError"
                  ("[Errno 2] No such file or directory: '" +:+ svg +:+ "'")), w)
    end.
Proof.
  unfold generate_icon_try, bind, open_read, cairosvg_svg2png, print, ret.
  destruct (fs w !! resolve (cwd w) svg) as [[data|n]|]; try reflexivity.
  destruct (text_decode data) as [text|e]; try reflexivity.
  cbn [entropy cwd fs log_raster].
  destruct (render (entropy w) (encode_utf8 text) size size) as [bytes|e];
    try reflexivity.
  destruct (fs w !! resolve (cwd w) png) as [[d|n]|]; reflexivity.
Qed.

(** The [try] block returns [True] whenever it returns. *)
Lemma generate_icon_try_true svg png size w b w' :
  generate_icon_try' svg png size w = (Ok b, w') -> b = true.
Proof.
  rewrite generate_icon_try_cases.
  repeat case_match; intros [= <- <-] || discriminate; reflexivity.
Qed.

Lemma convert_step_outcome c svg png size w :
  convert_step' c (svg, png, size) w
  = match fs w !! resolve (cwd w) svg with
    | None => (Ok c, put_line ("   ⚠️  SVG not found: " +:+ svg) w)
    | Some _ =>
        match generate_icon_try' svg png size
                (put_line ("📦 Generating " +:+ png +:+ "...") w) with
        | (Ok _, w1) => (Ok (c + 1), w1)
        | (Raise e, w1) =>
            (Ok c, put_line ("   ❌ Failed: " +:+ png +:+ " - " +:+ exn_str e) w1)
        end
    end.
Proof.
  destruct (fs w !! resolve (cwd w) svg) as [n|] eqn:Hsrc.
  - rewrite convert_step_present by (rewrite Hsrc; eauto).
    rewrite generate_icon_unfold.
    destruct (generate_icon_try' _ _ _ _) as [[b|e] w1] eqn:Htry; [|reflexivity].
    apply generate_icon_try_true in Htry. subst b. reflexivity.
  - apply convert_step_missing, Hsrc.
Qed.

(** C2: when the conversion of a job raises, [generate_icon] catches the
    exception and returns [False] instead of raising; it prints one failure
    line made of the destination path and the description of the
    exception; and the loop goes on with the next job, the counter
    unchanged.  [generate_icon] never raises at all. *)
Theorem conversion_error_is_caught
    (svg png : string) (size : Z) (w0 w1 : world) (e : exn) :
  generate_icon_try' svg png size w0 = (Raise e, w1) ->
  exists w2,
    generate_icon' svg png size w0 = (Ok false, w2) /\
    stdout w2 = stdout w1 ++ ["   ❌ Failed: " +:+ png +:+ " - " +:+ exn_str e] /\
    fs w2 = fs w1 /\
    (forall (c : Z) (rest : list (string * string * Z)) (w : world),
        is_Some (fs w !! resolve (cwd w) svg) ->
        w0 = put_line ("📦 Generating " +:+ png +:+ "...") w ->
        for_each convert_step' ((svg, png, size) :: rest) c w
        = for_each convert_step' rest c w2) /\
    (forall (s p : string) (n : Z) (v : world),
        exists b v', generate_icon' s p n v = (Ok b, v')).
Proof.
  intros Htry. eexists. split; [|split; [|split; [|split]]].
  - rewrite generate_icon_unfold, Htry. reflexivity.
  - reflexivity.
  - reflexivity.
  - intros c rest w [n Hn] ->. cbn [for_each]. unfold bind at 1.
    rewrite convert_step_outcome, Hn, Htry. reflexivity.
  - intros s p n v. rewrite generate_icon_unfold.
    destruct (generate_icon_try' s p n v) as [[b|e'] v']; eauto.
Qed.

(** *** The two loops and [main] as a whole *)

Lemma main_unfold w :
  main' w
  = match for_each convert_step' icons 0 (loop_entry file__ w) with
    | (Ok c, w1) =>
        for_each listing_step icons tt
          (put_line "Generated files:"
             (put_line ""
                (put_line
                   (if c =? len icons then "✅ All icons generated successfully!"
                    else "⚠️  Generated " +:+ pretty c +:+ " out of "
                           +:+ pretty (len icons) +:+ " icons")
                   (put_line "" w1))))
    | (Raise e, w1) => (Raise e, w1)
    end.
Proof.
  unfold main, bind, print, os_path_abspath, os_chdir, loop_entry, script_dir.
  destruct (for_each convert_step' icons 0 _) as [[c|e] w1]; [|reflexivity].
  destruct (c =? len icons); reflexivity.
Qed.

(** The listing loop only prints. *)
Lemma listing_step_prints (job : string * string * Z) (v : world) :
  exists tail,
    listing_step tt job v
    = (Ok tt, World (fs v) (modules v) (entropy v) (cwd v) (stdout v ++ tail)
                    (spawned v) (raster_calls v)).
Proof.
  destruct job as [[svg png] size].
  unfold listing_step, bind, os_path_exists, os_path_getsize, print, ret.
  cbn beta iota.
  destruct (fs v !! resolve (cwd v) png) as [[data|n]|] eqn:Hdst.
  - rewrite bool_decide_eq_true_2 by eauto. rewrite Hdst.
    eexists [_]. reflexivity.
  - rewrite bool_decide_eq_true_2 by eauto. rewrite Hdst.
    eexists [_]. reflexivity.
  - rewrite bool_decide_eq_false_2 by (intros [x Hx]; discriminate).
    exists []. rewrite app_nil_r. destruct v; reflexivity.
Qed.

Lemma listing_only_prints (jobs : list (string * string * Z)) (v : world) :
  exists tail,
    for_each listing_step jobs tt v
    = (Ok tt, World (fs v) (modules v) (entropy v) (cwd v) (stdout v ++ tail)
                    (spawned v) (raster_calls v)).
Proof.
  revert v. induction jobs as [|job rest IH]; intros v.
  - exists []. rewrite app_nil_r. destruct v; reflexivity.
  - cbn [for_each]. unfold bind at 1.
    destruct (listing_step_prints job v) as [t1 ->].
    destruct (IH (World (fs v) (modules v) (entropy v) (cwd v) (stdout v ++ t1)
                        (spawned v) (raster_calls v))) as [t2 ->].
    exists (t1 ++ t2). cbn. rewrite app_assoc. reflexivity.
Qed.

(** What one step of the conversion loop may change. *)
Lemma generate_icon_try_prints svg png size w r w1 :
  generate_icon_try' svg png size w = (r, w1) ->
  exists out, stdout w1 = stdout w ++ out.
Proof.
  rewrite generate_icon_try_cases.
  repeat case_match; intros [= <- <-]; cbn;
    solve [exists []; rewrite app_nil_r; reflexivity | eexists; reflexivity].
Qed.

Lemma convert_step_lines c svg png size w :
  exists c' w' out,
    convert_step' c (svg, png, size) w = (Ok c', w') /\
    (c' = c \/ c' = c + 1) /\
    stdout w' = stdout w ++ out /\
    (In ("   ⚠️  SVG not found: " +:+ svg) out \/
     In ("📦 Generating " +:+ png +:+ "...") out).
Proof.
  rewrite convert_step_outcome.
  destruct (fs w !! resolve (cwd w) svg) as [n|].
  - destruct (generate_icon_try' _ _ _ _) as [[b|e] w1] eqn:Htry;
      destruct (generate_icon_try_prints _ _ _ _ _ _ Htry) as [out Hout];
      cbn in Hout.
    + exists (c + 1), w1, (("📦 Generating " +:+ png +:+ "...") :: out).
      repeat split; auto.
      * rewrite Hout, <- app_assoc. reflexivity.
      * right. left. reflexivity.
    + eexists c, _, (("📦 Generating " +:+ png +:+ "...") :: out ++ [_]).
      repeat split; auto.
      * cbn. rewrite Hout, <- !app_assoc. reflexivity.
      * right. left. reflexivity.
  - eexists c, _, [_]. repeat split; auto. left. left. reflexivity.
Qed.

Lemma for_each_convert_lines (jobs : list (string * string * Z)) c w :
  exists c' w' out,
    for_each convert_step' jobs c w = (Ok c', w') /\
    stdout w' = stdout w ++ out /\
    (forall svg png size, In (svg, png, size) jobs ->
       In ("   ⚠️  SVG not found: " +:+ svg) out \/
       In ("📦 Generating " +:+ png +:+ "...") out).
Proof.
  revert c w. induction jobs as [|[[svg png] size] rest IH]; intros c w.
  - exists c, w, []. rewrite app_nil_r. repeat split. intros ? ? ? [].
  - destruct (convert_step_lines c svg png size w)
      as (c1 & w1 & out1 & Hstep & _ & Hout1 & Hline).
    destruct (IH c1 w1) as (c2 & w2 & out2 & Hrest & Hout2 & Hlines).
    exists c2, w2, (out1 ++ out2). split; [|split].
    + cbn [for_each]. unfold bind at 1. rewrite Hstep. exact Hrest.
    + rewrite Hout2, Hout1, app_assoc. reflexivity.
    + intros s p n [[= -> -> ->]|Hin].
      * destruct Hline; [left|right]; apply in_or_app; left; assumption.
      * destruct (Hlines s p n Hin); [left|right]; apply in_or_app; right; assumption.
Qed.

(** [main] returns, and its console output is that of the conversion loop
    followed by the summary and the listing. *)
Lemma main_returns w :
  exists c w1 w' tail,
    for_each convert_step' icons 0 (loop_entry file__ w) = (Ok c, w1) /\
    main' w = (Ok tt, w') /\
    stdout w'
    = stdout w1
      ++ [""; (if c =? len icons then "✅ All icons generated successfully!"
               else "⚠️  Generated " +:+ pretty c +:+ " out of "
                      +:+ pretty (len icons) +:+ " icons");
          ""; "Generated files:"]
      ++ tail /\
    fs w' = fs w1 /\ cwd w' = cwd w1 /\ raster_calls w' = raster_calls w1.
Proof.
  destruct (for_each_convert_lines icons 0 (loop_entry file__ w))
    as (c & w1 & out & Hloop & _ & _).
  rewrite main_unfold, Hloop.
  match goal with |- context [for_each listing_step icons tt ?v] =>
    destruct (listing_only_prints icons v) as [tail Htail] end.
  exists c, w1. eexists. exists tail. split; [reflexivity|].
  split; [exact Htail|]. cbn. rewrite <- !app_assoc. repeat split.
Qed.

(** C3: the summary line that [main] prints after the loop is the
    all-succeeded line exactly when the success counter the loop returned
    equals the number of jobs, 4; with any other counter it reads
    "Generated <counter> out of 4 icons". *)
Theorem summary_all_succeeded_iff (w : world) :
  exists (c : Z) (w1 w' : world) (line : string) (tail : list string),
    for_each convert_step' icons 0 (loop_entry file__ w) = (Ok c, w1) /\
    main' w = (Ok tt, w') /\
    stdout w' = stdout w1 ++ [""; line; ""; "Generated files:"] ++ tail /\
    len icons = 4 /\
    (line = "✅ All icons generated successfully!" <-> c = 4) /\
    (c <> 4 -> line = "⚠️  Generated " +:+ pretty c +:+ " out of 4 icons").
Proof.
  clear shell import_failure.
  destruct (main_returns w) as (c & w1 & w' & tail & Hloop & Hmain & Hout & _).
  exists c, w1, w'. eexists. exists tail.
  split; [exact Hloop|]. split; [exact Hmain|]. split; [exact Hout|].
  split; [reflexivity|]. change (len icons) with 4.
  destruct (Z.eqb_spec c 4) as [->|Hne].
  - split; [tauto|]. intros Hc. contradiction.
  - split; [|intros _; reflexivity].
    split; [intros Heq; cbn in Heq; discriminate Heq|intros Hc; contradiction].
Qed.

(** *** Counting *)

Lemma count_outcome_split (l : list outcome) :
  count_outcome Skipped l + count_outcome Failed l + count_outcome Converted l = len l
  /\ 0 <= count_outcome Skipped l /\ 0 <= count_outcome Failed l
  /\ 0 <= count_outcome Converted l.
Proof.
  unfold len. induction l as [|o l IH]; [cbn; lia|].
  cbn [count_outcome List.length]. destruct o; cbn [outcome_eqb]; lia.
Qed.

Lemma outcomes_length (jobs : list (string * string * Z)) c w :
  List.length (outcomes text_decode render jobs c w) = List.length jobs.
Proof.
  revert c w. induction jobs as [|job rest IH]; intros c w; [reflexivity|].
  cbn [outcomes List.length]. f_equal.
  destruct (convert_step' c job w) as [[c'|e] w']; apply IH.
Qed.

Lemma for_each_convert_count (jobs : list (string * string * Z)) c w :
  exists w',
    for_each convert_step' jobs c w
    = (Ok (c + count_outcome Converted (outcomes text_decode render jobs c w)), w').
Proof.
  revert c w. induction jobs as [|[[svg png] size] rest IH]; intros c w.
  - exists w. cbn. rewrite Z.add_0_r. reflexivity.
  - cbn [for_each outcomes count_outcome]. unfold bind at 1. unfold job_outcome.
    rewrite convert_step_outcome.
    destruct (fs w !! resolve (cwd w) svg) as [n|].
    + destruct (generate_icon_try' _ _ _ _) as [[b|e] w1]; cbn [outcome_eqb].
      * destruct (IH (c + 1) w1) as [w' ->]. exists w'. do 2 f_equal. lia.
      * destruct (IH c (put_line ("   ❌ Failed: " +:+ png +:+ " - " +:+ exn_str e) w1))
          as [w' ->].
        exists w'. do 2 f_equal.
    + cbn [outcome_eqb].
      destruct (IH c (put_line ("   ⚠️  SVG not found: " +:+ svg) w)) as [w' ->].
      exists w'. do 2 f_equal.
Qed.

(** C4: the counter the loop hands to the summary is the number of jobs
    that were neither skipped nor failed; it lies between 0 and 4; it is
    the count the summary line shows; and one step of the loop adds 0 or 1
    to the counter. *)
Theorem reported_count_is_converted_jobs (w : world) :
  exists (c : Z) (w1 w' : world) (tail : list string),
    for_each convert_step' icons 0 (loop_entry file__ w) = (Ok c, w1) /\
    c = len icons
        - count_outcome Skipped (outcomes text_decode render icons 0 (loop_entry file__ w))
        - count_outcome Failed (outcomes text_decode render icons 0 (loop_entry file__ w)) /\
    c = count_outcome Converted (outcomes text_decode render icons 0 (loop_entry file__ w)) /\
    0 <= c <= 4 /\
    main' w = (Ok tt, w') /\
    stdout w'
    = stdout w1
      ++ [""; (if c =? 4 then "✅ All icons generated successfully!"
               else "⚠️  Generated " +:+ pretty c +:+ " out of 4 icons");
          ""; "Generated files:"]
      ++ tail /\
    (forall (k : Z) (job : string * string * Z) (v : world),
        exists k' v', convert_step' k job v = (Ok k', v') /\ (k' = k \/ k' = k + 1)).
Proof.
  destruct (main_returns w) as (c & w1 & w' & tail & Hloop & Hmain & Hout & _).
  destruct (for_each_convert_count icons 0 (loop_entry file__ w)) as [w2 Hcount].
  pose proof (outcomes_length icons 0 (loop_entry file__ w)) as Hlen.
  rewrite Hloop in Hcount.
  set (os := outcomes text_decode render icons 0 (loop_entry file__ w)) in *.
  clearbody os.
  assert (Hc : c = count_outcome Converted os) by (inversion Hcount; lia).
  pose proof (count_outcome_split os) as (Hsum & Hs & Hf & Hk).
  unfold len in Hsum. rewrite Hlen in Hsum.
  change (Z.of_nat (List.length icons)) with 4 in Hsum.
  exists c, w1, w', tail. change (len icons) with 4 in *.
  split; [exact Hloop|]. split; [lia|]. split; [exact Hc|]. split; [lia|].
  split; [exact Hmain|]. split; [exact Hout|].
  intros k [[svg png] size] v.
  destruct (convert_step_lines k svg png size v) as (k' & v' & out & Hstep & Hk' & _).
  eauto.
Qed.

(** C8: whatever the files are, [main] returns normally.  Its output holds,
    for each of the four jobs, either the warning of a skipped job or the
    line that announces its conversion, and then the summary line; the
    script as a whole returns normally once the rasterizer is imported. *)
Theorem batch_always_completes (w : world) :
  exists (w' : world) (out : list string),
    main' w = (Ok tt, w') /\
    stdout w' = stdout w ++ out /\
    (forall svg png size, In (svg, png, size) icons ->
       In ("   ⚠️  SVG not found: " +:+ svg) out \/
       In ("📦 Generating " +:+ png +:+ "...") out) /\
    (In "✅ All icons generated successfully!" out \/
     exists c : Z, In ("⚠️  Generated " +:+ pretty c +:+ " out of 4 icons") out) /\
    (bool_decide ("cairosvg" ∈ modules w) = true ->
     script text_decode render shell import_failure file__ w = (Ok tt, w')).
Proof.
  destruct (main_returns w) as (c & w1 & w' & tail & Hloop & Hmain & Hout & _).
  destruct (for_each_convert_lines icons 0 (loop_entry file__ w))
    as (c0 & w0 & out & Hloop' & Hlines & Hjobs).
  rewrite Hloop in Hloop'. injection Hloop' as <- <-.
  cbn [loop_entry stdout put_line set_cwd] in Hlines.
  exists w'.
  exists (["🎨 LendingPad PDF Auditor - Icon Generator"; str_mul "=" 50; "";
           "Converting SVG icons to PNG..."; ""]
          ++ out
          ++ [""; (if c =? len icons then "✅ All icons generated successfully!"
                   else "⚠️  Generated " +:+ pretty c +:+ " out of "
                          +:+ pretty (len icons) +:+ " icons");
              ""; "Generated files:"]
          ++ tail).
  split; [exact Hmain|]. split; [|split; [|split]].
  - rewrite Hout, Hlines, <- !app_assoc. reflexivity.
  - intros svg png size Hin. rewrite !in_app_iff.
    destruct (Hjobs svg png size Hin) as [H|H]; auto.
  - change (len icons) with 4.
    destruct (c =? 4); [left|right; exists c];
      rewrite !in_app_iff; right; right; left; right; left; reflexivity.
  - intros Himp. unfold script, bind, import_block, try_except, import_module.
    rewrite Himp. exact Hmain.
Qed.

(** *** What the loop does to files and to the rasterizer *)

Lemma write_if_lookup_ne (s t : list string) (g : option node -> option string)
    (f : gmap (list string) node) (k : list string) :
  k <> t -> write_if s t g f !! k = f !! k.
Proof.
  intros Hne. unfold write_if.
  destruct (g (f !! s)); [|reflexivity].
  destruct (f !! t) as [[data|n]|]; try reflexivity;
    apply lookup_insert_ne; congruence.
Qed.

Lemma write_if_idem (s t : list string) (g : option node -> option string)
    (f : gmap (list string) node) :
  s <> t -> write_if s t g (write_if s t g f) = write_if s t g f.
Proof.
  intros Hne. unfold write_if.
  destruct (g (f !! s)) as [png|] eqn:Hg; [|rewrite Hg; reflexivity].
  destruct (f !! t) as [[data|n]|] eqn:Ht;
    rewrite ?lookup_insert_ne, ?Hg, ?Ht, ?lookup_insert_eq by congruence;
    try reflexivity; apply insert_insert_eq.
Qed.

Lemma write_if_comm (s1 t1 : list string) (g1 : option node -> option string)
    (s2 t2 : list string) (g2 : option node -> option string)
    (f : gmap (list string) node) :
  s1 <> t2 -> s2 <> t1 -> t1 <> t2 ->
  write_if s1 t1 g1 (write_if s2 t2 g2 f) = write_if s2 t2 g2 (write_if s1 t1 g1 f).
Proof.
  intros H12 H21 Ht.
  set (f2 := write_if s2 t2 g2 f). set (f1 := write_if s1 t1 g1 f).
  unfold write_if. subst f1 f2.
  rewrite !write_if_lookup_ne by congruence.
  unfold write_if.
  destruct (g1 (f !! s1)) as [p1|]; destruct (g2 (f !! s2)) as [p2|];
    destruct (f !! t1) as [[d1|n1]|]; destruct (f !! t2) as [[d2|n2]|];
    try reflexivity; apply insert_insert_ne; congruence.
Qed.

Lemma job_fs_comm (n : nat) (d : list string) (j k : string * string * Z)
    (f : gmap (list string) node) :
  apart d j k ->
  job_fs text_decode render n d j (job_fs text_decode render n d k f)
  = job_fs text_decode render n d k (job_fs text_decode render n d j f).
Proof.
  destruct j as [[s1 t1] z1], k as [[s2 t2] z2]. intros (H12 & H21 & Ht).
  cbn in H12, H21, Ht. unfold job_fs. apply write_if_comm; assumption.
Qed.

Lemma batch_fs_cons (n : nat) (d : list string) (j : string * string * Z)
    (r : list (string * string * Z)) (f : gmap (list string) node) :
  batch_fs text_decode render n d (j :: r) f
  = batch_fs text_decode render n d r (job_fs text_decode render n d j f).
Proof. reflexivity. Qed.

Lemma job_fs_batch_comm (n : nat) (d : list string) (j : string * string * Z)
    (r : list (string * string * Z))
    (f : gmap (list string) node) :
  Forall (apart d j) r ->
  job_fs text_decode render n d j (batch_fs text_decode render n d r f)
  = batch_fs text_decode render n d r (job_fs text_decode render n d j f).
Proof.
  intros Hall. revert f. induction Hall as [|k r Hk _ IH]; intros f; [reflexivity|].
  rewrite !batch_fs_cons, IH. f_equal. apply job_fs_comm, Hk.
Qed.

Lemma batch_fs_idem (n : nat) (d : list string) (jobs : list (string * string * Z))
    (f : gmap (list string) node) :
  separate d jobs ->
  batch_fs text_decode render n d jobs (batch_fs text_decode render n d jobs f)
  = batch_fs text_decode render n d jobs f.
Proof.
  revert f. induction jobs as [|j r IH]; intros f Hsep; [reflexivity|].
  destruct Hsep as (Hj & Hall & Hr).
  rewrite !batch_fs_cons. rewrite job_fs_batch_comm by assumption.
  replace (job_fs text_decode render n d j (job_fs text_decode render n d j f))
    with (job_fs text_decode render n d j f).
  - apply IH, Hr.
  - destruct j as [[s t] z]. unfold job_fs. symmetry. apply write_if_idem, Hj.
Qed.

Lemma icons_separate (d : list string) : separate d icons.
Proof.
  cbn [separate icons]. unfold apart. cbn [fst snd].
  change (resolve d "icon-16.svg") with (d ++ ["icon-16.svg"]).
  change (resolve d "icon-32.svg") with (d ++ ["icon-32.svg"]).
  change (resolve d "icon-48.svg") with (d ++ ["icon-48.svg"]).
  change (resolve d "icon-master.svg") with (d ++ ["icon-master.svg"]).
  change (resolve d "icon16.png") with (d ++ ["icon16.png"]).
  change (resolve d "icon32.png") with (d ++ ["icon32.png"]).
  change (resolve d "icon48.png") with (d ++ ["icon48.png"]).
  change (resolve d "icon128.png") with (d ++ ["icon128.png"]).
  repeat (first [split | constructor]);
    try (intros H; apply app_inv_head in H; discriminate H).
Qed.

Lemma convert_step_effect (c : Z) (job : string * string * Z) (w : world) :
  exists c' w' calls,
    convert_step' c job w = (Ok c', w') /\
    cwd w' = cwd w /\
    fs w' = job_fs text_decode render (entropy w) (cwd w) job (fs w) /\
    raster_calls w' = raster_calls w ++ calls /\
    Forall (fun rc => rc_write_to rc = job.1.2 /\
                      rc_output_width rc = job.2 /\ rc_output_height rc = job.2) calls.
Proof.
  destruct job as [[svg png] size].
  rewrite convert_step_outcome, generate_icon_try_cases.
  cbn [fs cwd entropy put_line fst snd]. unfold job_fs, write_if, job_png.
  destruct (fs w !! resolve (cwd w) svg) as [[data|n]|].
  - destruct (text_decode data) as [text|e].
    + destruct (render (entropy w) (encode_utf8 text) size size) as [bytes|e].
      * destruct (fs w !! resolve (cwd w) png) as [[old|n]|];
          do 2 eexists; eexists [_]; repeat split; repeat constructor.
      * do 2 eexists; eexists [_]; repeat split; repeat constructor.
    + do 2 eexists; exists []; rewrite app_nil_r; repeat split; constructor.
  - do 2 eexists; exists []; rewrite app_nil_r; repeat split; constructor.
  - do 2 eexists; exists []; rewrite app_nil_r; repeat split; constructor.
Qed.

Lemma job_fs_lookup (n : nat) (d : list string) (job : string * string * Z)
    (f : gmap (list string) node) (k : list string) :
  job_fs text_decode render n d job f !! k = f !! k \/ k = resolve d job.1.2.
Proof.
  destruct job as [[svg png] size]. cbn [fst snd]. unfold job_fs.
  destruct (decide (k = resolve d png)) as [->|Hne]; [right; reflexivity|].
  left. apply write_if_lookup_ne, Hne.
Qed.

Lemma job_fs_deterministic (n : nat) (d : list string) (job : string * string * Z)
    (f : gmap (list string) node) :
  deterministic render ->
  job_fs text_decode render n d job f = job_fs text_decode render 0 d job f.
Proof.
  intros Hdet. destruct job as [[svg png] size]. unfold job_fs, write_if, job_png.
  destruct (f !! resolve d svg) as [[data|m]|]; try reflexivity.
  destruct (text_decode data) as [text|e]; try reflexivity.
  rewrite (Hdet n 0%nat). reflexivity.
Qed.

Lemma for_each_convert_effect (jobs : list (string * string * Z)) (c : Z) (w : world) :
  exists c' w' calls,
    for_each convert_step' jobs c w = (Ok c', w') /\
    cwd w' = cwd w /\
    raster_calls w' = raster_calls w ++ calls /\
    Forall (fun rc => exists svg png size,
                In (svg, png, size) jobs /\ rc_write_to rc = png /\
                rc_output_width rc = size /\ rc_output_height rc = size) calls /\
    (forall k : list string,
        fs w' !! k = fs w !! k \/
        exists svg png size, In (svg, png, size) jobs /\ k = resolve (cwd w) png) /\
    (deterministic render ->
     fs w' = batch_fs text_decode render 0 (cwd w) jobs (fs w)).
Proof.
  revert c w. induction jobs as [|job rest IH]; intros c w.
  - exists c, w, []. rewrite app_nil_r. repeat split; auto.
  - destruct (convert_step_effect c job w)
      as (c1 & w1 & calls1 & Hstep & Hcwd1 & Hfs1 & Hcalls1 & Hall1).
    destruct (IH c1 w1) as (c2 & w2 & calls2 & Hrest & Hcwd2 & Hcalls2 & Hall2 & Hfr & Hfs2).
    exists c2, w2, (calls1 ++ calls2).
    split; [|split; [|split; [|split; [|split]]]].
    + cbn [for_each]. unfold bind at 1. rewrite Hstep. exact Hrest.
    + congruence.
    + rewrite Hcalls2, Hcalls1, app_assoc. reflexivity.
    + apply Forall_app. split.
      * eapply Forall_impl; [exact Hall1|]. intros rc (Hto & Hw & Hh).
        destruct job as [[svg png] size]. exists svg, png, size.
        cbn in *. auto.
      * eapply Forall_impl; [exact Hall2|]. intros rc (svg & png & size & Hin & H).
        exists svg, png, size. split; [right; exact Hin|exact H].
    + intros k. destruct (Hfr k) as [Heq|(svg & png & size & Hin & ->)].
      * rewrite Heq, Hfs1.
        destruct (job_fs_lookup (entropy w) (cwd w) job (fs w) k) as [Hk| ->]; [left; exact Hk|].
        right. destruct job as [[svg png] size]. exists svg, png, size.
        split; [left; reflexivity|reflexivity].
      * right. exists svg, png, size. rewrite Hcwd1. split; [right; exact Hin|reflexivity].
    + intros Hdet. rewrite (Hfs2 Hdet), Hcwd1, Hfs1, batch_fs_cons.
      rewrite job_fs_deterministic by assumption. reflexivity.
Qed.

Lemma main_effect (w : world) :
  exists w' calls,
    main' w = (Ok tt, w') /\
    cwd w' = script_dir file__ w /\
    raster_calls w' = raster_calls w ++ calls /\
    Forall (fun rc => exists svg png size,
                In (svg, png, size) icons /\ rc_write_to rc = png /\
                rc_output_width rc = size /\ rc_output_height rc = size) calls /\
    (forall k : list string,
        fs w' !! k = fs w !! k \/
        exists svg png size,
          In (svg, png, size) icons /\ k = resolve (script_dir file__ w) png) /\
    (deterministic render ->
     fs w' = batch_fs text_decode render 0 (script_dir file__ w) icons (fs w)).
Proof.
  destruct (main_returns w)
    as (c & w1 & w' & tail & Hloop & Hmain & _ & Hfs & Hcwd & Hcalls).
  destruct (for_each_convert_effect icons 0 (loop_entry file__ w))
    as (c0 & w0 & calls & Hloop' & Hcwd' & Hcalls' & Hall & Hfr & Hdet).
  rewrite Hloop in Hloop'. injection Hloop' as <- <-.
  exists w', calls. rewrite Hfs, Hcwd, Hcalls.
  split; [exact Hmain|]. split; [exact Hcwd'|]. split; [exact Hcalls'|].
  split; [exact Hall|]. split; [exact Hfr|exact Hdet].
Qed.

Lemma generate_icon_success (svg png : string) (size : Z) (v v' : world) :
  generate_icon' svg png size v = (Ok true, v') ->
  exists data text bytes,
    fs v !! resolve (cwd v) svg = Some (File data) /\
    text_decode data = Ok text /\
    render (entropy v) (encode_utf8 text) size size = Ok bytes /\
    fs v' = <[resolve (cwd v) png := File bytes]> (fs v).
Proof.
  rewrite generate_icon_unfold, generate_icon_try_cases.
  destruct (fs v !! resolve (cwd v) svg) as [[data|n]|]; try discriminate.
  destruct (text_decode data) as [text|e] eqn:Htext; try discriminate.
  cbn zeta.
  destruct (render (entropy v) (encode_utf8 text) size size) as [bytes|e] eqn:Hpng;
    try discriminate.
  destruct (fs v !! resolve (cwd v) png) as [[old|n]|]; try discriminate;
    intros [= <-]; exists data, text, bytes; auto.
Qed.

(** C5: the batch is the four jobs of sizes 16, 32, 48 and 128.  Every
    call of the rasterizer that [main] makes is for one of these jobs, with
    that job's destination and with output width and output height both
    equal to the job's size; a job whose source is a file that decodes
    makes exactly one such call; and a destination written by a successful
    conversion holds what the rasterizer returned for that width and
    height. *)
Theorem rasterizer_called_square (w : world) :
  map snd icons = [16; 32; 48; 128] /\
  List.length icons = 4%nat /\
  (exists w' calls,
      main' w = (Ok tt, w') /\
      raster_calls w' = raster_calls w ++ calls /\
      Forall (fun rc => exists svg png size,
                  In (svg, png, size) icons /\ rc_write_to rc = png /\
                  rc_output_width rc = size /\ rc_output_height rc = size) calls) /\
  (forall (c : Z) (svg png : string) (size : Z) (v : world) (data text : string),
      fs v !! resolve (cwd v) svg = Some (File data) ->
      text_decode data = Ok text ->
      exists c' v',
        convert_step' c (svg, png, size) v = (Ok c', v') /\
        raster_calls v'
        = raster_calls v ++ [RasterCall (encode_utf8 text) png size size]) /\
  (forall (svg png : string) (size : Z) (v v' : world),
      generate_icon' svg png size v = (Ok true, v') ->
      exists text bytes,
        render (entropy v) text size size = Ok bytes /\
        fs v' !! resolve (cwd v) png = Some (File bytes)).
Proof.
  split; [reflexivity|]. split; [reflexivity|]. split; [|split].
  - destruct (main_effect w) as (w' & calls & Hmain & _ & Hcalls & Hall & _).
    exists w', calls. auto.
  - intros c svg png size v data text Hsrc Htext.
    rewrite convert_step_outcome, Hsrc, generate_icon_try_cases.
    cbn [fs cwd entropy put_line]. rewrite Hsrc, Htext. cbn zeta.
    destruct (render (entropy v) (encode_utf8 text) size size) as [bytes|e].
    + destruct (fs v !! resolve (cwd v) png) as [[old|n]|];
        do 2 eexists; split; reflexivity.
    + do 2 eexists; split; reflexivity.
  - intros svg png size v v' Hgen.
    destruct (generate_icon_success _ _ _ _ _ Hgen) as (data & text & bytes & _ & _ & Hr & Hfs).
    exists (encode_utf8 text), bytes. split; [exact Hr|].
    rewrite Hfs. apply lookup_insert_eq.
Qed.

(** C7: [main] leaves the process in the directory of the script; the only
    files it changes are destinations of jobs in that directory; and the
    same script started from any other working directory [d] ends in the
    same world: the directory the caller was in decides nothing. *)
Theorem paths_relative_to_script_dir (w : world) (d : list string) :
  script_dir file__ (set_cwd d w) = script_dir file__ w ->
  main' (set_cwd d w) = main' w /\
  exists w',
    main' w = (Ok tt, w') /\
    cwd w' = script_dir file__ w /\
    cwd (loop_entry file__ w) = script_dir file__ w /\
    (forall k : list string,
        fs w' !! k <> fs w !! k ->
        exists svg png size,
          In (svg, png, size) icons /\ k = script_dir file__ w ++ [png]).
Proof.
  intros Hdir. split.
  - rewrite !main_unfold.
    replace (loop_entry file__ (set_cwd d w)) with (loop_entry file__ w); [reflexivity|].
    unfold loop_entry. rewrite Hdir. reflexivity.
  - destruct (main_effect w) as (w' & calls & Hmain & Hcwd & _ & _ & Hfr & _).
    exists w'. split; [exact Hmain|]. split; [exact Hcwd|]. split; [reflexivity|].
    intros k Hk. destruct (Hfr k) as [Heq|(svg & png & size & Hin & ->)]; [contradiction|].
    exists svg, png, size. split; [exact Hin|].
    pose proof icons_plain as Hplain. rewrite Forall_forall in Hplain.
    apply (Hplain (svg, png, size)). apply list_elem_of_In, Hin.
Qed.

(** C9: with a deterministic rasterizer, a second run of [main] on the file
    system the first run left, from any working directory from which the
    script is the same, returns and leaves every file, hence every
    destination, as the first run left it. *)
Theorem rerun_leaves_files_identical (w : world) :
  deterministic render ->
  exists w1,
    main' w = (Ok tt, w1) /\
    forall v : world,
      fs v = fs w1 ->
      script_dir file__ v = script_dir file__ w ->
      exists v1, main' v = (Ok tt, v1) /\ fs v1 = fs w1.
Proof.
  intros Hdet.
  destruct (main_effect w) as (w1 & calls & Hmain & _ & _ & _ & _ & Hfs).
  exists w1. split; [exact Hmain|]. intros v Hv Hdir.
  destruct (main_effect v) as (v1 & calls' & Hmain' & _ & _ & _ & _ & Hfs').
  exists v1. split; [exact Hmain'|].
  rewrite (Hfs' Hdet), Hdir, Hv, (Hfs Hdet).
  apply batch_fs_idem, icons_separate.
Qed.

(** C10: a job is skipped exactly when its source is missing, whatever
    sits at its destination: putting anything there, or nothing, changes
    neither the decision to skip nor, when the source exists, the fact that
    [generate_icon] is called; and when source, decoding and rendering are
    fine and the destination is not a directory, the step succeeds and the
    destination holds the rendered bytes, whatever it held before. *)
Theorem destination_never_decides
    (svg png : string) (size c : Z) (w : world) (o : option node) :
  resolve (cwd w) svg <> resolve (cwd w) png ->
  (job_outcome text_decode render (svg, png, size)
     (set_fs (partial_alter (fun _ => o) (resolve (cwd w) png) (fs w)) w) = Skipped
   <-> job_outcome text_decode render (svg, png, size) w = Skipped) /\
  (job_outcome text_decode render (svg, png, size) w = Skipped
   <-> fs w !! resolve (cwd w) svg = None) /\
  (is_Some (fs w !! resolve (cwd w) svg) ->
   exists b w',
     generate_icon' svg png size (put_line ("📦 Generating " +:+ png +:+ "...") w)
     = (Ok b, w') /\
     convert_step' c (svg, png, size) w = (Ok (if b then c + 1 else c), w')) /\
  (forall data text bytes : string,
      fs w !! resolve (cwd w) svg = Some (File data) ->
      text_decode data = Ok text ->
      render (entropy w) (encode_utf8 text) size size = Ok bytes ->
      (forall n : N, fs w !! resolve (cwd w) png <> Some (Dir n)) ->
      exists w',
        convert_step' c (svg, png, size) w = (Ok (c + 1), w') /\
        fs w' = <[resolve (cwd w) png := File bytes]> (fs w)).
Proof.
  clear shell import_failure file__. intros Hne.
  assert (Hskip : forall v : world,
             job_outcome text_decode render (svg, png, size) v = Skipped
             <-> fs v !! resolve (cwd v) svg = None).
  { intros v. unfold job_outcome.
    destruct (fs v !! resolve (cwd v) svg) as [n|]; [|tauto].
    destruct (generate_icon_try' _ _ _ _) as [[b|e] v']; split; discriminate. }
  split; [|split; [exact (Hskip w)|split]].
  - rewrite !Hskip. cbn [fs cwd set_fs].
    rewrite lookup_partial_alter_ne by congruence. tauto.
  - intros Hsrc. rewrite convert_step_present by assumption.
    rewrite generate_icon_unfold.
    destruct (generate_icon_try' _ _ _ _) as [[[|]|e] w'];
      do 2 eexists; split; reflexivity.
  - intros data text bytes Hsrc Htext Hpng Hdst.
    rewrite convert_step_outcome, Hsrc, generate_icon_try_cases.
    cbn [fs cwd entropy put_line]. rewrite Hsrc, Htext. cbn zeta. rewrite Hpng.
    destruct (fs w !! resolve (cwd w) png) as [[old|n]|] eqn:Hd.
    + eexists. split; reflexivity.
    + exfalso. exact (Hdst n eq_refl).
    + eexists. split; reflexivity.
Qed.


(** *** Further properties of the script *)

(** X1: a job whose source is a file that decodes and renders, and whose
    destination is not a directory, prints the line that announces it and
    then the confirmation naming the destination and the size twice; the
    counter grows by one, and the rasterizer was called once. *)
Theorem successful_job_reports
    (c : Z) (svg png : string) (size : Z) (w : world) (data text bytes : string) :
  fs w !! resolve (cwd w) svg = Some (File data) ->
  text_decode data = Ok text ->
  render (entropy w) (encode_utf8 text) size size = Ok bytes ->
  (forall n : N, fs w !! resolve (cwd w) png <> Some (Dir n)) ->
  exists w',
    convert_step' c (svg, png, size) w = (Ok (c + 1), w') /\
    stdout w'
    = stdout w
      ++ ["📦 Generating " +:+ png +:+ "...";
          "   ✅ Created: " +:+ png +:+ " (" +:+ pretty size +:+ "x" +:+ pretty size +:+ ")"] /\
    entropy w' = S (entropy w) /\
    cwd w' = cwd w.
Proof.
  clear shell import_failure file__. intros Hsrc Htext Hpng Hdst.
  rewrite convert_step_outcome, Hsrc, generate_icon_try_cases.
  cbn [fs cwd entropy put_line]. rewrite Hsrc, Htext. cbn zeta. rewrite Hpng.
  destruct (fs w !! resolve (cwd w) png) as [[old|n]|] eqn:Hd.
  - eexists. split; [reflexivity|]. cbn. rewrite <- app_assoc. auto.
  - exfalso. exact (Hdst n eq_refl).
  - eexists. split; [reflexivity|]. cbn. rewrite <- app_assoc. auto.
Qed.

(** X2: when the source cannot be read (it is missing, a directory, or
    does not decode), [generate_icon] returns [False] and prints the
    failure line with the description of the error, without calling the
    rasterizer and without changing any file. *)
Theorem unreadable_source_fails_before_rasterizer
    (svg png : string) (size : Z) (w w1 : world) (e : exn) :
  open_read text_decode svg w = (Raise e, w1) ->
  exists w',
    generate_icon' svg png size w = (Ok false, w') /\
    stdout w' = stdout w ++ ["   ❌ Failed: " +:+ png +:+ " - " +:+ exn_str e] /\
    raster_calls w' = raster_calls w /\
    entropy w' = entropy w /\
    fs w' = fs w.
Proof.
  clear shell import_failure file__. intros Hread.
  assert (Hw1 : w1 = w).
  { unfold open_read in Hread.
    destruct (fs w !! resolve (cwd w) svg) as [[data|n]|];
      [destruct (text_decode data)|..]; congruence. }
  subst w1. eexists. split.
  - unfold generate_icon, try_except, generate_icon_try, bind at 1.
    rewrite Hread. cbn [Exception]. unfold bind, print, ret. reflexivity.
  - repeat split.
Qed.

(** X3: a source path at which a directory sits is not skipped: the job
    is announced, fails with "Is a directory", and leaves the counter, the
    files and the rasterizer alone. *)
Theorem directory_source_fails (c : Z) (svg png : string) (size : Z) (w : world) (n : N) :
  fs w !! resolve (cwd w) svg = Some (Dir n) ->
  exists w',
    convert_step' c (svg, png, size) w = (Ok c, w') /\
    stdout w'
    = stdout w
      ++ ["📦 Generating " +:+ png +:+ "...";
          "   ❌ Failed: " +:+ png +:+ " - [Errno 21] Is a directory: '" +:+ svg +:+ "'"] /\
    fs w' = fs w /\
    raster_calls w' = raster_calls w.
Proof.
  clear shell import_failure file__. intros Hsrc.
  rewrite convert_step_outcome, Hsrc, generate_icon_try_cases.
  cbn [fs cwd entropy put_line]. rewrite Hsrc.
  eexists. split; [reflexivity|]. cbn. rewrite <- app_assoc. auto.
Qed.

Lemma for_each_all_missing (jobs : list (string * string * Z)) (c : Z) (w : world) :
  (forall job, In job jobs -> fs w !! resolve (cwd w) job.1.1 = None) ->
  for_each convert_step' jobs c w
  = (Ok c, World (fs w) (modules w) (entropy w) (cwd w)
               (stdout w ++ map (fun job : string * string * Z =>
                                   "   ⚠️  SVG not found: " +:+ job.1.1) jobs)
               (spawned w) (raster_calls w)).
Proof.
  clear shell import_failure file__. revert w. induction jobs as [|[[svg png] size] rest IH]; intros w Hall.
  - cbn. rewrite app_nil_r. destruct w; reflexivity.
  - cbn [for_each]. unfold bind at 1.
    rewrite convert_step_missing by (apply (Hall (svg, png, size)); left; reflexivity).
    rewrite IH by (intros job Hin; apply Hall; right; exact Hin).
    cbn. rewrite <- app_assoc. reflexivity.
Qed.

(** The listing loop prints the listing of the file system it finds. *)
Lemma listing_exact (jobs : list (string * string * Z)) (u : world) :
  for_each listing_step jobs tt u
  = (Ok tt, World (fs u) (modules u) (entropy u) (cwd u)
                  (stdout u ++ listing_of (cwd u) (fs u) jobs)
                  (spawned u) (raster_calls u)).
Proof.
  revert u. induction jobs as [|[[s p] z] rest IH]; intros u.
  - cbn. rewrite app_nil_r. destruct u; reflexivity.
  - cbn [for_each listing_of]. unfold bind at 1.
    unfold listing_step, bind, os_path_exists, os_path_getsize, print, ret.
    cbn beta iota.
    destruct (fs u !! resolve (cwd u) p) as [[data|n]|] eqn:Hp.
    + rewrite bool_decide_eq_true_2 by eauto. rewrite Hp, IH.
      cbn. rewrite <- app_assoc. reflexivity.
    + rewrite bool_decide_eq_true_2 by eauto. rewrite Hp, IH.
      cbn. rewrite <- app_assoc. reflexivity.
    + rewrite bool_decide_eq_false_2 by (intros [x Hx]; discriminate).
      rewrite IH. destruct u; reflexivity.
Qed.

(** X4: when none of the four sources exists in the script's directory,
    [main] prints the four warnings and "Generated 0 out of 4 icons", calls
    the rasterizer not once and leaves every file as it was. *)
Theorem nothing_to_convert (w : world) :
  (forall svg png size, In (svg, png, size) icons ->
     fs w !! (script_dir file__ w ++ [svg]) = None) ->
  exists w',
    main' w = (Ok tt, w') /\
    fs w' = fs w /\
    raster_calls w' = raster_calls w /\
    stdout w'
    = stdout w
      ++ ["🎨 LendingPad PDF Auditor - Icon Generator"; str_mul "=" 50; "";
          "Converting SVG icons to PNG..."; "";
          "   ⚠️  SVG not found: icon-16.svg";
          "   ⚠️  SVG not found: icon-32.svg";
          "   ⚠️  SVG not found: icon-48.svg";
          "   ⚠️  SVG not found: icon-master.svg";
          ""; "⚠️  Generated 0 out of 4 icons"; ""; "Generated files:"]
      ++ listing_of (script_dir file__ w) (fs w) icons.
Proof.
  clear shell import_failure. intros Hnone.
  rewrite main_unfold, for_each_all_missing.
  - rewrite listing_exact.
    eexists. split; [reflexivity|]. cbn. rewrite <- !app_assoc. auto.
  - intros [[svg png] size] Hin. cbn [fst snd loop_entry fs cwd put_line set_cwd].
    pose proof icons_plain as Hplain. rewrite Forall_forall in Hplain.
    destruct (Hplain (svg, png, size)) as [Hsvg _]; [apply list_elem_of_In, Hin|].
    cbn in Hsvg. rewrite Hsvg. apply (Hnone svg png size Hin).
Qed.

(** X5: started by an absolute path, the script does the same whatever
    directory the caller was in. *)
Theorem absolute_script_path_ignores_cwd (w : world) (d : list string) :
  is_abs file__ = true ->
  main' (set_cwd d w) = main' w.
Proof.
  clear shell import_failure. intros Habs. rewrite !main_unfold.
  replace (loop_entry file__ (set_cwd d w)) with (loop_entry file__ w); [reflexivity|].
  unfold loop_entry, script_dir, resolve. rewrite Habs. reflexivity.
Qed.

Lemma write_if_keeps (s t : list string) (g : option node -> option string)
    (f : gmap (list string) node) (k : list string) :
  (is_Some (f !! k) -> is_Some (write_if s t g f !! k)) /\
  (forall n : N, f !! k = Some (Dir n) -> write_if s t g f !! k = Some (Dir n)).
Proof.
  clear text_decode render shell import_failure file__.
  unfold write_if. destruct (g (f !! s)) as [png|]; [|tauto].
  destruct (f !! t) as [[old|m]|] eqn:Ht; [|tauto|];
    (destruct (decide (k = t)) as [->|Hne];
     [rewrite lookup_insert_eq; split; [eauto|congruence]
     |rewrite lookup_insert_ne by congruence; tauto]).
Qed.

Lemma convert_step_frame (c : Z) (job : string * string * Z) (w : world) :
  exists c' w',
    convert_step' c job w = (Ok c', w') /\
    spawned w' = spawned w /\
    modules w' = modules w /\
    (raster_calls w' = raster_calls w /\ entropy w' = entropy w \/
     exists rc, raster_calls w' = raster_calls w ++ [rc] /\ entropy w' = S (entropy w)).
Proof.
  clear shell import_failure file__. destruct job as [[svg png] size].
  rewrite convert_step_outcome, generate_icon_try_cases.
  cbn [fs cwd entropy put_line].
  destruct (fs w !! resolve (cwd w) svg) as [[data|n]|].
  - destruct (text_decode data) as [text|e].
    + cbn zeta.
      destruct (render (entropy w) (encode_utf8 text) size size) as [bytes|e].
      * destruct (fs w !! resolve (cwd w) png) as [[old|n]|];
          do 2 eexists; (split; [reflexivity|]); cbn; eauto 6.
      * do 2 eexists; (split; [reflexivity|]); cbn; eauto 6.
    + do 2 eexists; (split; [reflexivity|]); cbn; auto.
  - do 2 eexists; (split; [reflexivity|]); cbn; auto.
  - do 2 eexists; (split; [reflexivity|]); cbn; auto.
Qed.

Lemma for_each_convert_frame (jobs : list (string * string * Z)) (c : Z) (w : world) :
  exists c' w',
    for_each convert_step' jobs c w = (Ok c', w') /\
    spawned w' = spawned w /\
    modules w' = modules w /\
    (List.length (raster_calls w') <= List.length (raster_calls w) + List.length jobs)%nat /\
    (entropy w' + List.length (raster_calls w)
     = entropy w + List.length (raster_calls w'))%nat /\
    (forall k : list string,
        (is_Some (fs w !! k) -> is_Some (fs w' !! k)) /\
        (forall n : N, fs w !! k = Some (Dir n) -> fs w' !! k = Some (Dir n))).
Proof.
  clear shell import_failure file__. revert c w. induction jobs as [|job rest IH]; intros c w.
  - exists c, w. cbn. repeat split; auto; lia.
  - destruct (convert_step_frame c job w) as (c1 & w1 & Hstep & Hsp1 & Hmod1 & Hcalls1).
    destruct (convert_step_effect c job w)
      as (c1' & w1' & calls & Hstep' & _ & Hfs1 & _).
    rewrite Hstep in Hstep'. injection Hstep' as <- <-.
    destruct (IH c1 w1) as (c2 & w2 & Hrest & Hsp2 & Hmod2 & Hlen & Hent & Hkeep).
    exists c2, w2. split; [|split; [|split; [|split; [|split]]]].
    + cbn [for_each]. unfold bind at 1. rewrite Hstep. exact Hrest.
    + congruence.
    + congruence.
    + cbn [List.length].
      destruct Hcalls1 as [[Hc He]|(rc & Hc & He)]; rewrite Hc in Hlen;
        rewrite ?length_app in Hlen; cbn in Hlen; lia.
    + destruct Hcalls1 as [[Hc He]|(rc & Hc & He)]; rewrite Hc, He in Hent;
        rewrite ?length_app in Hent; cbn in Hent; lia.
    + intros k. destruct (Hkeep k) as [Hsome Hdir]. rewrite Hfs1 in Hsome, Hdir.
      destruct job as [[svg png] size]. unfold job_fs in Hsome, Hdir.
      destruct (write_if_keeps (resolve (cwd w) svg) (resolve (cwd w) png)
                  (job_png text_decode render (entropy w) size) (fs w) k)
        as [Hs Hd].
      split; [auto|]. intros n Hn. apply Hdir, Hd, Hn.
Qed.

(** [main] written out: the world it returns. *)
Lemma main_result (w : world) :
  exists c w1,
    for_each convert_step' icons 0 (loop_entry file__ w) = (Ok c, w1) /\
    main' w
    = (Ok tt,
       World (fs w1) (modules w1) (entropy w1) (cwd w1)
             (stdout w1
              ++ [""; (if c =? len icons then "✅ All icons generated successfully!"
                       else "⚠️  Generated " +:+ pretty c +:+ " out of "
                              +:+ pretty (len icons) +:+ " icons");
                  ""; "Generated files:"]
              ++ listing_of (cwd w1) (fs w1) icons)
             (spawned w1) (raster_calls w1)).
Proof.
  clear shell import_failure.
  destruct (for_each_convert_lines icons 0 (loop_entry file__ w))
    as (c & w1 & out & Hloop & _ & _).
  exists c, w1. split; [exact Hloop|].
  rewrite main_unfold, Hloop, listing_exact. cbn. rewrite <- !app_assoc. reflexivity.
Qed.

(** X6: when [cairosvg] can be imported, the script as a whole returns
    normally without running any shell command and without changing which
    modules are installed. *)
Theorem no_shell_when_rasterizer_present (w : world) :
  bool_decide ("cairosvg" ∈ modules w) = true ->
  exists w',
    script text_decode render shell import_failure file__ w = (Ok tt, w') /\
    spawned w' = spawned w /\
    modules w' = modules w.
Proof.
  intros Himp.
  destruct (main_result w) as (c & w1 & Hloop & Hmain).
  destruct (for_each_convert_frame icons 0 (loop_entry file__ w))
    as (c' & w1' & Hloop' & Hsp & Hmod & _).
  rewrite Hloop in Hloop'. injection Hloop' as <- <-.
  eexists. split; [|split].
  - unfold script, bind, import_block, try_except, import_module.
    rewrite Himp. exact Hmain.
  - exact Hsp.
  - exact Hmod.
Qed.

(** X7: [main] calls the rasterizer at most four times, and the entropy of
    the world advances by the number of calls; one step of the loop, that
    is one job, makes one call at most. *)
Theorem rasterizer_called_at_most_four_times (w : world) :
  exists w',
    main' w = (Ok tt, w') /\
    (List.length (raster_calls w) <= List.length (raster_calls w')
     <= List.length (raster_calls w) + 4)%nat /\
    (entropy w' + List.length (raster_calls w)
     = entropy w + List.length (raster_calls w'))%nat /\
    (forall (k : Z) (job : string * string * Z) (v : world),
        exists k' v',
          convert_step' k job v = (Ok k', v') /\
          (raster_calls v' = raster_calls v \/
           exists rc, raster_calls v' = raster_calls v ++ [rc])).
Proof.
  clear shell import_failure.
  assert (Hstep : forall (k : Z) (job : string * string * Z) (v : world),
             exists k' v',
               convert_step' k job v = (Ok k', v') /\
               (raster_calls v' = raster_calls v \/
                exists rc, raster_calls v' = raster_calls v ++ [rc])).
  { intros k job v.
    destruct (convert_step_frame k job v) as (k' & v' & Hk & _ & _ & Hcalls).
    exists k', v'. split; [exact Hk|].
    destruct Hcalls as [[Hc _]|(rc & Hc & _)]; [left; exact Hc|right; exists rc; exact Hc]. }
  destruct (main_result w) as (c & w1 & Hloop & Hmain).
  destruct (for_each_convert_frame icons 0 (loop_entry file__ w))
    as (c' & w1' & Hloop' & _ & _ & Hlen & Hent & _).
  destruct (for_each_convert_effect icons 0 (loop_entry file__ w))
    as (c'' & w1'' & calls & Hloop'' & _ & Hcalls & _).
  rewrite Hloop in Hloop', Hloop''.
  injection Hloop' as <- <-. injection Hloop'' as <- <-.
  eexists. split; [exact Hmain|].
  cbn [raster_calls entropy loop_entry put_line set_cwd] in *.
  change (List.length icons) with 4%nat in Hlen.
  apply (f_equal (@List.length raster_call)) in Hcalls.
  rewrite length_app in Hcalls. split; [lia|]. split; [lia|exact Hstep].
Qed.

(** X8: [main] never removes a file, never replaces a directory, and
    never changes a source of a job. *)
Theorem main_keeps_files (w : world) :
  exists w',
    main' w = (Ok tt, w') /\
    (forall k : list string, is_Some (fs w !! k) -> is_Some (fs w' !! k)) /\
    (forall (k : list string) (n : N), fs w !! k = Some (Dir n) -> fs w' !! k = Some (Dir n)) /\
    (forall svg png size, In (svg, png, size) icons ->
       fs w' !! (script_dir file__ w ++ [svg]) = fs w !! (script_dir file__ w ++ [svg])).
Proof.
  clear shell import_failure.
  destruct (main_result w) as (c & w1 & Hloop & Hmain).
  destruct (for_each_convert_frame icons 0 (loop_entry file__ w))
    as (c' & w1' & Hloop' & _ & _ & _ & _ & Hkeep).
  destruct (for_each_convert_effect icons 0 (loop_entry file__ w))
    as (c'' & w1'' & calls & Hloop'' & _ & _ & _ & Hfr & _).
  rewrite Hloop in Hloop', Hloop''.
  injection Hloop' as <- <-. injection Hloop'' as <- <-.
  eexists. split; [exact Hmain|]. cbn [fs loop_entry put_line set_cwd cwd] in *.
  split; [intros k; apply Hkeep|]. split; [intros k; apply Hkeep|].
  intros svg png size Hin.
  destruct (Hfr (script_dir file__ w ++ [svg])) as [Heq|(s & p & z & Hin' & Hk)];
    [exact Heq|].
  exfalso.
  pose proof icons_plain as Hplain. rewrite Forall_forall in Hplain.
  destruct (Hplain (s, p, z)) as [_ Hp]; [apply list_elem_of_In, Hin'|].
  cbn in Hp. rewrite Hp in Hk. apply app_inv_head in Hk.
  cbn in Hin, Hin'.
  destruct Hin as [Hin|[Hin|[Hin|[Hin|[]]]]]; injection Hin as <- _ _;
    destruct Hin' as [Hi|[Hi|[Hi|[Hi|[]]]]]; injection Hi as _ <- _;
    discriminate Hk.
Qed.

(** X9: the listing that ends the run shows the files as the run left
    them: one line, with the size in bytes, for each destination that
    exists in the script's directory when the loop is over, in the order of
    the jobs, and no line for a destination that does not exist. *)
Theorem listing_shows_final_files (w : world) :
  exists (w' : world) (before : list string),
    main' w = (Ok tt, w') /\
    stdout w'
    = before ++ ["Generated files:"]
      ++ listing_of (script_dir file__ w) (fs w') icons.
Proof.
  clear shell import_failure.
  destruct (main_result w) as (c & w1 & Hloop & Hmain).
  destruct (for_each_convert_effect icons 0 (loop_entry file__ w))
    as (c' & w1' & calls & Hloop' & Hcwd & _).
  rewrite Hloop in Hloop'. injection Hloop' as <- <-.
  cbn [cwd loop_entry put_line set_cwd] in Hcwd.
  eexists. eexists (stdout w1 ++ [_; _; _]).
  split; [exact Hmain|]. cbn [stdout fs]. rewrite Hcwd, <- !app_assoc. reflexivity.
Qed.

(** A convertible job succeeds and stores a file at its destination. *)
Lemma convert_step_convertible (c : Z) (job : string * string * Z) (w : world) :
  convertible text_decode render (cwd w) (fs w) job ->
  exists w' bytes,
    convert_step' c job w = (Ok (c + 1), w') /\
    cwd w' = cwd w /\
    fs w' = <[resolve (cwd w) job.1.2 := File bytes]> (fs w).
Proof.
  clear shell import_failure file__. destruct job as [[svg png] size].
  intros (data & text & Hsrc & Htext & Hrender & Hdst). cbn [fst snd] in *.
  destruct (Hrender (entropy w)) as [bytes Hpng].
  rewrite convert_step_outcome, Hsrc, generate_icon_try_cases.
  cbn [fs cwd entropy put_line]. rewrite Hsrc, Htext. cbn zeta. rewrite Hpng.
  destruct (fs w !! resolve (cwd w) png) as [[old|n]|] eqn:Hd.
  - do 2 eexists. repeat split.
  - exfalso. exact (Hdst n eq_refl).
  - do 2 eexists. repeat split.
Qed.

Lemma for_each_all_convertible (jobs : list (string * string * Z)) (c : Z) (w : world) :
  separate (cwd w) jobs ->
  Forall (convertible text_decode render (cwd w) (fs w)) jobs ->
  exists w',
    for_each convert_step' jobs c w = (Ok (c + len jobs), w') /\
    cwd w' = cwd w /\
    Forall (fun job : string * string * Z =>
              exists bytes, fs w' !! resolve (cwd w) job.1.2 = Some (File bytes)) jobs /\
    (forall k : list string,
        Forall (fun job : string * string * Z => k <> resolve (cwd w) job.1.2) jobs ->
        fs w' !! k = fs w !! k).
Proof.
  clear shell import_failure file__. revert c w. induction jobs as [|j rest IH]; intros c w Hsep Hall.
  - exists w. unfold len. cbn. rewrite Z.add_0_r. repeat split; auto.
  - destruct Hsep as (Hj & Hapart & Hrest).
    apply Forall_cons in Hall as [Hconv Hall].
    destruct (convert_step_convertible c j w Hconv) as (w1 & bytes & Hstep & Hcwd & Hfs).
    assert (Hall1 : Forall (convertible text_decode render (cwd w1) (fs w1)) rest).
    { rewrite Forall_forall in Hall, Hapart. apply Forall_forall. intros k Hk.
      destruct (Hall k Hk) as (data & text & Hsrc & Htext & Hrender & Hdst).
      destruct (Hapart k Hk) as (_ & Hkj & Hjk).
      exists data, text. rewrite Hcwd, Hfs.
      rewrite !lookup_insert_ne by congruence. auto. }
    destruct (IH (c + 1) w1) as (w' & Hloop & Hcwd' & Hfiles & Hframe);
      [rewrite Hcwd; exact Hrest|exact Hall1|].
    exists w'. split; [|split; [|split]].
    + cbn [for_each]. unfold bind at 1. rewrite Hstep, Hloop.
      unfold len. cbn [List.length]. do 2 f_equal. lia.
    + congruence.
    + apply Forall_cons. split.
      * exists bytes. rewrite Hframe.
        -- rewrite Hfs. apply lookup_insert_eq.
        -- rewrite Hcwd. eapply Forall_impl; [exact Hapart|].
           intros k (_ & _ & Hjk). exact Hjk.
      * rewrite Hcwd in Hfiles. exact Hfiles.
    + intros k Hk. apply Forall_cons in Hk as [Hkj Hk].
      rewrite Hframe by (rewrite Hcwd; exact Hk).
      rewrite Hfs. apply lookup_insert_ne. congruence.
Qed.

Lemma icons_resolve (d : list string) (job : string * string * Z) :
  job ∈ icons -> resolve d job.1.2 = d ++ [job.1.2].
Proof.
  clear. intros Hin. pose proof icons_plain as Hplain.
  rewrite Forall_forall in Hplain. apply (Hplain job Hin).
Qed.

(** X10: when every one of the four jobs is convertible in the script's
    directory, [main] reports that all icons were generated, every
    destination is a file afterwards, and nothing else was changed. *)
Theorem all_convertible_all_generated (w : world) :
  Forall (convertible text_decode render (script_dir file__ w) (fs w)) icons ->
  exists (w' : world) (before : list string),
    main' w = (Ok tt, w') /\
    stdout w'
    = before ++ ["✅ All icons generated successfully!"; ""; "Generated files:"]
      ++ listing_of (script_dir file__ w) (fs w') icons /\
    Forall (fun job : string * string * Z =>
              exists bytes, fs w' !! (script_dir file__ w ++ [job.1.2]) = Some (File bytes))
           icons /\
    (forall k : list string,
        Forall (fun job : string * string * Z => k <> script_dir file__ w ++ [job.1.2]) icons ->
        fs w' !! k = fs w !! k).
Proof.
  clear shell import_failure. intros Hall.
  destruct (for_each_all_convertible icons 0 (loop_entry file__ w))
    as (w1 & Hloop & Hcwd & Hfiles & Hframe);
    [apply icons_separate|exact Hall|].
  destruct (main_result w) as (c & w1' & Hloop' & Hmain).
  rewrite Hloop in Hloop'. injection Hloop' as <- <-.
  cbn [cwd fs loop_entry put_line set_cwd] in Hcwd, Hfiles, Hframe.
  eexists. exists (stdout w1 ++ [""]).
  split; [exact Hmain|]. cbn [stdout fs]. split; [|split].
  - rewrite Hcwd, <- !app_assoc. reflexivity.
  - rewrite Forall_forall in Hfiles |- *. intros job Hin.
    rewrite <- (icons_resolve (script_dir file__ w) job Hin). apply Hfiles, Hin.
  - intros k Hk. apply Hframe.
    rewrite Forall_forall in Hk |- *. intros job Hin.
    rewrite (icons_resolve (script_dir file__ w) job Hin). apply Hk, Hin.
Qed.

(** *** The order of the jobs *)

Lemma batch_fs_permutation (n : nat) (d : list string)
    (l l' : list (string * string * Z)) (f : gmap (list string) node) :
  Permutation l l' ->
  all_apart d l ->
  batch_fs text_decode render n d l f = batch_fs text_decode render n d l' f.
Proof.
  clear shell import_failure file__. intros Hperm. revert f.
  induction Hperm as [|x l l' Hperm IH|x y l|l l' l'' H1 IH1 H2 IH2]; intros f Hap.
  - reflexivity.
  - rewrite !batch_fs_cons. apply IH.
    intros j k Hj Hk. apply Hap; right; assumption.
  - rewrite !batch_fs_cons. f_equal.
    destruct (decide (x = y)) as [->|Hne]; [reflexivity|].
    apply job_fs_comm. apply Hap; [right; left; reflexivity|left; reflexivity|congruence].
  - rewrite IH1 by assumption. apply IH2.
    intros j k Hj Hk. apply Hap; eapply Permutation_in; try eassumption;
      apply Permutation_sym; assumption.
Qed.

Lemma icons_all_apart (d : list string) : all_apart d icons.
Proof.
  clear. intros j k Hj Hk Hne. cbn in Hj, Hk.
  destruct Hj as [<-|[<-|[<-|[<-|[]]]]]; destruct Hk as [<-|[<-|[<-|[<-|[]]]]];
    try (exfalso; apply Hne; reflexivity);
    unfold apart; cbn [fst snd];
    repeat split; intros H; apply (app_inv_head d) in H; discriminate H.
Qed.

(** X11: the jobs do not depend on each other: with a deterministic
    rasterizer, the conversion loop run over the four jobs in any other
    order leaves the same files. *)
Theorem job_order_is_irrelevant
    (jobs : list (string * string * Z)) (c : Z) (w : world) :
  deterministic render ->
  Permutation icons jobs ->
  exists c1 w1 c2 w2,
    for_each convert_step' icons c w = (Ok c1, w1) /\
    for_each convert_step' jobs c w = (Ok c2, w2) /\
    fs w1 = fs w2.
Proof.
  clear shell import_failure file__. intros Hdet Hperm.
  destruct (for_each_convert_effect icons c w)
    as (c1 & w1 & calls1 & Hloop1 & _ & _ & _ & _ & Hfs1).
  destruct (for_each_convert_effect jobs c w)
    as (c2 & w2 & calls2 & Hloop2 & _ & _ & _ & _ & Hfs2).
  exists c1, w1, c2, w2. split; [exact Hloop1|]. split; [exact Hloop2|].
  rewrite (Hfs1 Hdet), (Hfs2 Hdet).
  apply batch_fs_permutation; [exact Hperm|apply icons_all_apart].
Qed.


End Properties.

(** ** The properties on the sample installation *)

Lemma missing_source_skips_job_sample :
  fs entry_world !! resolve (cwd entry_world) "icon-48.svg" = None /\
  exists w',
    convert_step sample_decode sample_render 2 ("icon-48.svg", "icon48.png", 48) entry_world
    = (Ok 2, w') /\
    fs w' = fs entry_world.
Proof.
  split; [vm_compute; reflexivity|].
  destruct (missing_source_skips_job sample_decode sample_render
              "icon-48.svg" "icon48.png" 48 [] 2 entry_world)
    as (w' & Hstep & Hfs & _); [vm_compute; reflexivity|].
  exists w'. split; [exact Hstep|exact Hfs].
Defined.

Lemma conversion_error_is_caught_sample :
  generate_icon_try sample_decode sample_render "icon-32.svg" "icon32.png" 32
    second_job_world
  = (Raise (Exn "ParseError" "syntax error: line 1, column 0"),
     log_raster (RasterCall "junk" "icon32.png" 32 32) second_job_world) /\
  exists w2,
    generate_icon sample_decode sample_render "icon-32.svg" "icon32.png" 32
      second_job_world = (Ok false, w2) /\
    stdout w2
    = stdout second_job_world
      ++ ["   ❌ Failed: icon32.png - syntax error: line 1, column 0"].
Proof.
  assert (Htry :
    generate_icon_try sample_decode sample_render "icon-32.svg" "icon32.png" 32
      second_job_world
    = (Raise (Exn "ParseError" "syntax error: line 1, column 0"),
       log_raster (RasterCall "junk" "icon32.png" 32 32) second_job_world))
    by (vm_compute; reflexivity).
  split; [exact Htry|].
  destruct (conversion_error_is_caught sample_decode sample_render
              "icon-32.svg" "icon32.png" 32 second_job_world _ _ Htry)
    as (w2 & Hgen & Hout & _).
  exists w2. split; [exact Hgen|exact Hout].
Defined.

Lemma paths_relative_to_script_dir_sample :
  script_dir sample_file (set_cwd ["tmp"] sample_world)
  = script_dir sample_file sample_world /\
  main sample_decode sample_render sample_file (set_cwd ["tmp"] sample_world)
  = main sample_decode sample_render sample_file sample_world.
Proof.
  split; [vm_compute; reflexivity|].
  apply (paths_relative_to_script_dir sample_decode sample_render sample_file
           sample_world ["tmp"]).
  vm_compute; reflexivity.
Defined.

Lemma rerun_leaves_files_identical_sample :
  deterministic sample_render /\
  exists w1 v1,
    main sample_decode sample_render sample_file sample_world = (Ok tt, w1) /\
    main sample_decode sample_render sample_file w1 = (Ok tt, v1) /\
    fs v1 = fs w1.
Proof.
  split; [intros n m b wd ht; reflexivity|].
  destruct (rerun_leaves_files_identical sample_decode sample_render sample_file
              sample_world)
    as (w1 & Hmain & Hagain); [intros n m b wd ht; reflexivity|].
  destruct (Hagain w1 eq_refl) as (v1 & Hmain' & Hfs).
  - assert (Hcwd : w1 = (main sample_decode sample_render sample_file sample_world).2)
      by (rewrite Hmain; reflexivity).
    rewrite Hcwd. vm_compute. reflexivity.
  - exists w1, v1. auto.
Defined.

Lemma destination_never_decides_sample :
  resolve (cwd entry_world) "icon-16.svg" <> resolve (cwd entry_world) "icon16.png" /\
  (job_outcome sample_decode sample_render ("icon-16.svg", "icon16.png", 16)
     (set_fs (partial_alter (fun _ => Some (File "old png"))
                (resolve (cwd entry_world) "icon16.png") (fs entry_world))
        entry_world) = Skipped
   <-> job_outcome sample_decode sample_render ("icon-16.svg", "icon16.png", 16)
         entry_world = Skipped).
Proof.
  split; [vm_compute; discriminate|].
  apply (destination_never_decides sample_decode sample_render
           "icon-16.svg" "icon16.png" 16 0 entry_world (Some (File "old png"))).
  vm_compute; discriminate.
Defined.



(** ** The sizes of the listing *)

Lemma strip_commas_of_list (l : list ascii) :
  strip_commas (string_of_list_ascii l)
  = string_of_list_ascii (List.filter (fun c => negb (Ascii.eqb c ","%char)) l).
Proof.
  induction l as [|c l IH]; [reflexivity|].
  cbn. destruct (Ascii.eqb c ","%char); cbn; rewrite IH; reflexivity.
Qed.

Lemma filter_group3 (l : list ascii) (k : nat) :
  List.filter (fun c => negb (Ascii.eqb c ","%char)) (group3 l k)
  = List.filter (fun c => negb (Ascii.eqb c ","%char)) l.
Proof.
  revert k. induction l as [|c l IH]; intros k; [reflexivity|].
  cbn [group3]. destruct (k =? 3)%nat; cbn; rewrite IH; reflexivity.
Qed.

Lemma strip_with_commas (s : string) : strip_commas (with_commas s) = strip_commas s.
Proof.
  unfold with_commas. rewrite strip_commas_of_list, List.filter_rev, filter_group3.
  rewrite List.filter_rev, rev_involutive, <- strip_commas_of_list.
  rewrite string_of_list_ascii_of_string. reflexivity.
Qed.

Lemma pretty_N_go_no_comma (x : N) (s : string) :
  strip_commas s = s -> strip_commas (pretty_N_go x s) = pretty_N_go x s.
Proof.
  revert s. induction (N.lt_wf_0 x) as [x _ IH]; intros s Hs.
  destruct (decide (x = 0)%N) as [->|Hx]; [rewrite pretty_N_go_0; exact Hs|].
  rewrite pretty_N_go_step by lia. apply IH; [apply N.div_lt; lia|].
  unfold pretty_N_char. repeat case_match; cbn; rewrite Hs; reflexivity.
Qed.

Lemma strip_commas_dash (s : string) : strip_commas ("-" +:+ s) = "-" +:+ strip_commas s.
Proof. reflexivity. Qed.

Lemma pretty_Z_no_comma (n : Z) : strip_commas (pretty n) = pretty n.
Proof.
  assert (HN : forall p : positive, strip_commas (pretty (N.pos p)) = pretty (N.pos p)).
  { intros p. unfold pretty, pretty_N. destruct (decide (N.pos p = 0%N)); [reflexivity|].
    apply pretty_N_go_no_comma. reflexivity. }
  destruct n as [|p|p]; [reflexivity|apply HN|].
  change (pretty (Z.neg p)) with ("-" +:+ pretty (N.pos p)).
  rewrite strip_commas_dash, HN. reflexivity.
Qed.

(** X12: the size shown in a listing line can be read back: without its
    commas it is the decimal writing of the size, so different sizes are
    shown differently. *)
Theorem format_commas_round_trip (n : Z) :
  strip_commas (format_commas n) = pretty n /\
  (forall m : Z, format_commas n = format_commas m -> n = m).
Proof.
  assert (Hstrip : forall k : Z, strip_commas (format_commas k) = pretty k).
  { intros k. unfold format_commas. destruct (Z.ltb_spec k 0) as [Hneg|Hpos].
    - destruct k as [|p|p]; try lia.
      change (- Z.neg p) with (Z.pos p).
      change (pretty (Z.neg p)) with ("-" +:+ pretty (Z.pos p)).
      rewrite strip_commas_dash, strip_with_commas, pretty_Z_no_comma. reflexivity.
    - rewrite strip_with_commas. apply pretty_Z_no_comma. }
  split; [apply Hstrip|].
  intros m Heq. apply (inj pretty). rewrite <- !Hstrip, Heq. reflexivity.
Qed.

(** ** The further properties on the sample installations *)

Lemma successful_job_reports_sample :
  fs full_entry_world !! resolve (cwd full_entry_world) "icon-16.svg"
  = Some (File "<svg>16</svg>") /\
  exists w',
    convert_step sample_decode sample_render 0 ("icon-16.svg", "icon16.png", 16)
      full_entry_world = (Ok 1, w') /\
    stdout w'
    = stdout full_entry_world
      ++ ["📦 Generating icon16.png..."; "   ✅ Created: icon16.png (16x16)"].
Proof.
  split; [vm_compute; reflexivity|].
  destruct (successful_job_reports sample_decode sample_render 0
              "icon-16.svg" "icon16.png" 16 full_entry_world
              "<svg>16</svg>" "<svg>16</svg>" "PNG 16x16 <svg>16</svg>")
    as (w' & Hstep & Hout & _).
  - vm_compute; reflexivity.
  - vm_compute; reflexivity.
  - vm_compute; reflexivity.
  - intros n. vm_compute. discriminate.
  - exists w'. split; [exact Hstep|exact Hout].
Defined.

Lemma unreadable_source_fails_before_rasterizer_sample :
  open_read sample_decode "icon-48.svg" entry_world
  = (Raise (Exn "FileNotFoundError"
              "[Errno 2] No such file or directory: 'icon-48.svg'"), entry_world) /\
  exists w',
    generate_icon sample_decode sample_render "icon-48.svg" "icon48.png" 48 entry_world
    = (Ok false, w') /\
    raster_calls w' = raster_calls entry_world.
Proof.
  assert (Hread :
    open_read sample_decode "icon-48.svg" entry_world
    = (Raise (Exn "FileNotFoundError"
                "[Errno 2] No such file or directory: 'icon-48.svg'"), entry_world))
    by (vm_compute; reflexivity).
  split; [exact Hread|].
  destruct (unreadable_source_fails_before_rasterizer sample_decode sample_render
              "icon-48.svg" "icon48.png" 48 entry_world _ _ Hread)
    as (w' & Hgen & _ & Hcalls & _).
  exists w'. split; [exact Hgen|exact Hcalls].
Defined.

Lemma directory_source_fails_sample :
  fs dir_source_world !! resolve (cwd dir_source_world) "icon-16.svg" = Some (Dir 4096) /\
  exists w',
    convert_step sample_decode sample_render 0 ("icon-16.svg", "icon16.png", 16)
      dir_source_world = (Ok 0, w') /\
    stdout w'
    = ["📦 Generating icon16.png...";
       "   ❌ Failed: icon16.png - [Errno 21] Is a directory: 'icon-16.svg'"].
Proof.
  split; [vm_compute; reflexivity|].
  destruct (directory_source_fails sample_decode sample_render 0
              "icon-16.svg" "icon16.png" 16 dir_source_world 4096)
    as (w' & Hstep & Hout & _); [vm_compute; reflexivity|].
  exists w'. split; [exact Hstep|exact Hout].
Defined.

Lemma nothing_to_convert_sample :
  (forall svg png size, In (svg, png, size) icons ->
     fs empty_world !! (script_dir sample_file empty_world ++ [svg]) = None) /\
  exists w',
    main sample_decode sample_render sample_file empty_world = (Ok tt, w') /\
    fs w' = fs empty_world.
Proof.
  assert (Hnone : forall svg png size, In (svg, png, size) icons ->
            fs empty_world !! (script_dir sample_file empty_world ++ [svg]) = None).
  { intros svg png size Hin. cbn in Hin.
    destruct Hin as [Hin|[Hin|[Hin|[Hin|[]]]]]; injection Hin as <- _ _;
      vm_compute; reflexivity. }
  split; [exact Hnone|].
  destruct (nothing_to_convert sample_decode sample_render sample_file empty_world Hnone)
    as (w' & Hmain & Hfs & _).
  exists w'. split; [exact Hmain|exact Hfs].
Defined.

Lemma absolute_script_path_ignores_cwd_sample :
  is_abs sample_file = true /\
  main sample_decode sample_render sample_file (set_cwd ["var"; "tmp"] full_world)
  = main sample_decode sample_render sample_file full_world.
Proof.
  split; [reflexivity|].
  apply (absolute_script_path_ignores_cwd sample_decode sample_render sample_file
           full_world ["var"; "tmp"]).
  reflexivity.
Defined.

Lemma no_shell_when_rasterizer_present_sample :
  bool_decide ("cairosvg" ∈ modules sample_world) = true /\
  exists w',
    script sample_decode sample_render offline_shell not_installed sample_file sample_world
    = (Ok tt, w') /\
    spawned w' = [].
Proof.
  split; [vm_compute; reflexivity|].
  destruct (no_shell_when_rasterizer_present sample_decode sample_render offline_shell
              not_installed sample_file sample_world)
    as (w' & Hrun & Hspawned & _); [vm_compute; reflexivity|].
  exists w'. split; [exact Hrun|exact Hspawned].
Defined.

Lemma all_convertible_all_generated_sample :
  Forall (convertible sample_decode sample_render
            (script_dir sample_file full_world) (fs full_world)) icons /\
  exists w' bytes,
    main sample_decode sample_render sample_file full_world = (Ok tt, w') /\
    fs w' !! (script_dir sample_file full_world ++ ["icon16.png"]) = Some (File bytes).
Proof.
  assert (Hall : Forall (convertible sample_decode sample_render
                           (script_dir sample_file full_world) (fs full_world)) icons).
  { repeat apply Forall_cons_2; [..|apply Forall_nil_2];
      (eexists _, _; split; [vm_compute; reflexivity|];
       split; [vm_compute; reflexivity|];
       split; [intros n; eexists; vm_compute; reflexivity
              |intros n; vm_compute; discriminate]). }
  split; [exact Hall|].
  destruct (all_convertible_all_generated sample_decode sample_render sample_file
              full_world Hall)
    as (w' & before & Hmain & _ & Hfiles & _).
  apply Forall_cons in Hfiles as [[bytes Hfile] _].
  exists w', bytes. split; [exact Hmain|exact Hfile].
Defined.

Lemma job_order_is_irrelevant_sample :
  deterministic sample_render /\
  Permutation icons icons_swapped /\
  exists c1 w1 c2 w2,
    for_each (convert_step sample_decode sample_render) icons 0 full_entry_world
    = (Ok c1, w1) /\
    for_each (convert_step sample_decode sample_render) icons_swapped 0 full_entry_world
    = (Ok c2, w2) /\
    fs w1 = fs w2.
Proof.
  split; [intros n m b wd ht; reflexivity|].
  split; [apply perm_swap|].
  apply (job_order_is_irrelevant sample_decode sample_render icons_swapped 0
           full_entry_world).
  - intros n m b wd ht; reflexivity.
  - apply perm_swap.
Defined.

